(** * pollen-feed: request window, browser cache and latest-reading selection

    A shallow embedding of [js/pollen-feed.js]: the functions
    [getUrlParameter], [getFormattedDateUTC], [getDataByCategory] and the
    per-category selection of [displayGaugesForCategories], followed by the
    properties of the specification that concern them.

    JavaScript numbers are IEEE-754 binary64 values: they are modelled by
    Rocq's primitive [float].  Epoch-millisecond time values are integers and
    are kept in [Z]. *)

From Stdlib Require Import ZArith String Ascii List Bool Lia Floats DecimalString Sorted.
Import ListNotations.

Set Warnings "-register-all".

Local Open Scope string_scope.
Local Open Scope Z_scope.

(* ===================================================================== *)
(** * JavaScript values *)
(* ===================================================================== *)

(** The values that flow through [getDataByCategory]: whatever
    [JSON.parse] can build, plus [undefined] (the result of a failed
    [Array.prototype.find]).  An object is its list of own properties in
    enumeration order. *)
Inductive jsval : Type :=
| JUndefined
| JNull
| JBool (b : bool)
| JNum (x : float)
| JStr (s : string)
| JArr (elems : list jsval)
| JObj (props : list (string * jsval)).

(** What a thrown statement or a rejected promise carries. *)
Inductive exn : Type :=
| TypeError      (* property read on null/undefined, call of a non-function *)
| FetchRejected. (* network failure, or a body that is not JSON *)

(** Completion of a pure JavaScript expression: a value or a throw. *)
Inductive completion (A : Type) : Type :=
| Normal (a : A)
| Throw (e : exn).
Arguments Normal {A} a.
Arguments Throw {A} e.

Definition cbind {A B} (c : completion A) (k : A -> completion B) : completion B :=
  match c with
  | Normal a => k a
  | Throw e => Throw e
  end.

(** [ToBoolean]. *)
Definition truthy (v : jsval) : bool :=
  match v with
  | JUndefined | JNull => false
  | JBool b => b
  | JNum x => negb (PrimFloat.is_zero x || PrimFloat.is_nan x)
  | JStr s => negb (String.eqb s "")
  | JArr _ | JObj _ => true
  end.

Fixpoint lookup_prop (name : string) (props : list (string * jsval)) : jsval :=
  match props with
  | [] => JUndefined
  | (k, v) :: rest => if String.eqb k name then v else lookup_prop name rest
  end.

(** [v.name] for the property names this program reads ([Moments],
    [Categories], [CategoryCode], [moments], [categories]); none of them is
    a built-in property of arrays, strings, numbers or booleans, so on those
    the read yields [undefined].  On [null] and [undefined] it throws. *)
Definition get_prop (v : jsval) (name : string) : completion jsval :=
  match v with
  | JUndefined | JNull => Throw TypeError
  | JObj props => Normal (lookup_prop name props)
  | JBool _ | JNum _ | JStr _ | JArr _ => Normal JUndefined
  end.

(** [v === s] for a string [s]: strict equality never converts. *)
Definition strict_equals_str (v : jsval) (s : string) : bool :=
  match v with
  | JStr t => String.eqb t s
  | _ => false
  end.

(** [Array.prototype.find]: the first element on which the callback
    answers true, [undefined] when there is none; a throw of the callback
    ends the search. *)
Fixpoint Array_find (callback : jsval -> completion bool) (elems : list jsval)
  : completion jsval :=
  match elems with
  | [] => Normal JUndefined
  | x :: rest =>
      match callback x with
      | Throw e => Throw e
      | Normal true => Normal x
      | Normal false => Array_find callback rest
      end
  end.

(** [Array.prototype.map], left to right, for a callback that may throw. *)
Fixpoint Array_map {A B} (callback : A -> completion B) (elems : list A)
  : completion (list B) :=
  match elems with
  | [] => Normal []
  | x :: rest =>
      cbind (callback x) (fun y =>
      cbind (Array_map callback rest) (fun ys => Normal (y :: ys)))
  end.

(* ===================================================================== *)
(** * JSON text *)
(* ===================================================================== *)

(** A JSON text is represented by its syntax tree; the number leaf is the
    Number value its literal denotes (ECMAScript guarantees that the
    literal printed for a finite Number reads back as that Number). *)
Inductive json : Type :=
| TNull
| TBool (b : bool)
| TNum (x : float)
| TStr (s : string)
| TArr (elems : list json)
| TObj (members : list (string * json)).

(** [SerializeJSONProperty]: [None] is the [undefined] answer.
    A non-finite number is written [null]; negative zero is written [0]. *)
Definition stringify_number (x : float) : json :=
  if PrimFloat.is_finite x
  then (if PrimFloat.is_zero x then TNum PrimFloat.zero else TNum x)
  else TNull.

Fixpoint serialize (v : jsval) : option json :=
  match v with
  | JUndefined => None
  | JNull => Some TNull
  | JBool b => Some (TBool b)
  | JNum x => Some (stringify_number x)
  | JStr s => Some (TStr s)
  | JArr elems =>
      Some (TArr (map (fun e => match serialize e with
                                | Some t => t
                                | None => TNull
                                end) elems))
  | JObj props =>
      Some (TObj
        ((fix members (ps : list (string * jsval)) : list (string * json) :=
            match ps with
            | [] => []
            | (k, e) :: rest =>
                match serialize e with
                | Some t => (k, t) :: members rest
                | None => members rest
                end
            end) props))
  end.

Definition JSON_stringify (v : jsval) : option json := serialize v.

Fixpoint JSON_parse (t : json) : jsval :=
  match t with
  | TNull => JNull
  | TBool b => JBool b
  | TNum x => JNum x
  | TStr s => JStr s
  | TArr elems => JArr (map JSON_parse elems)
  | TObj members =>
      JObj ((fix props (ms : list (string * json)) : list (string * jsval) :=
               match ms with
               | [] => []
               | (k, e) :: rest => (k, JSON_parse e) :: props rest
               end) members)
  end.

(* ===================================================================== *)
(** * Number formatting: [Number.prototype.toFixed(2)] *)
(* ===================================================================== *)

(** Decimal digits of a non-negative integer, without leading zero. *)
Definition decimal (n : Z) : string :=
  NilZero.string_of_uint (N.to_uint (Z.to_N n)).

(** The last [width] decimal digits of [n], zero-padded on the left. *)
Fixpoint padded (width : nat) (n : Z) : string :=
  match width with
  | O => ""
  | S w => padded w (n / 10) ++ String (ascii_of_N (48 + Z.to_N (n mod 10))) ""
  end.

(** Round-to-nearest-even conversion of a non-negative integer to binary64. *)
Definition float_of_Z (n : Z) : float :=
  SF2Prim (binary_normalize prec emax n 0 false).

Fixpoint strip_trailing_zeros_rev (rev_digits : list ascii) : list ascii :=
  match rev_digits with
  | c :: rest => if Ascii.eqb c "0" then strip_trailing_zeros_rev rest else rev_digits
  | [] => []
  end.

Definition significant_digits (n : Z) : string :=
  string_of_list_ascii
    (rev (strip_trailing_zeros_rev (rev (list_ascii_of_string (decimal n))))).

(** [Number::toString] for an integral [x >= 10^21] whose exact value is
    [X]: the shortest digit string [s] and exponent with
    [float_of_Z (s * 10^..) = x], printed in exponent notation.  For each
    length [k] the two neighbours of [X] with [k] significant digits are
    tried, the nearer one first (the even one on a tie). *)
Fixpoint shortest_decimal (fuel : nat) (k : Z) (x : float) (X : Z) : Z :=
  match fuel with
  | O => X
  | S fuel' =>
      let unit := 10 ^ (Z.of_nat (String.length (decimal X)) - k) in
      let lo := (X / unit) * unit in
      let hi := lo + unit in
      let ok v := PrimFloat.Leibniz.eqb (float_of_Z v) x in
      let lo_first :=
        match (X - lo) ?= (hi - X) with
        | Lt => true
        | Gt => false
        | Eq => Z.even (X / unit)
        end in
      let first := if lo_first then lo else hi in
      let second := if lo_first then hi else lo in
      if ok first then first
      else if ok second then second
      else shortest_decimal fuel' (k + 1) x X
  end.

Definition exponent_notation (V : Z) : string :=
  let n := Z.of_nat (String.length (decimal V)) in
  match significant_digits V with
  | String d EmptyString => String d "" ++ "e+" ++ decimal (n - 1)
  | String d rest => String d "" ++ "." ++ rest ++ "e+" ++ decimal (n - 1)
  | EmptyString => "0"
  end.

(** [x.toFixed(2)] (ECMAScript, Number.prototype.toFixed with
    fractionDigits 2).  A finite [x] is [(-1)^s * m * 2^e] exactly; [n] is
    the integer nearest to [|x| * 100], the larger one on a tie. *)
Definition toFixed2 (x : float) : string :=
  match Prim2SF x with
  | S754_nan => "NaN"
  | S754_infinity false => "Infinity"
  | S754_infinity true => "-Infinity"
  | S754_zero _ => "0.00"
  | S754_finite s m e =>
      let sign := if s then "-" else "" in
      let integral := if 0 <=? e then Zpos m * 2 ^ e else Zpos m / 2 ^ (- e) in
      if 10 ^ 21 <=? integral
      then sign ++ exponent_notation (shortest_decimal 18 1 (PrimFloat.abs x) integral)
      else
        let n := if 0 <=? e then 100 * Zpos m * 2 ^ e
                 else (200 * Zpos m + 2 ^ (- e)) / (2 * 2 ^ (- e)) in
        sign ++ decimal (n / 100) ++ "." ++ padded 2 (n mod 100)
  end.

(* ===================================================================== *)
(** * Dates: [Date.prototype.toISOString] and [String.prototype.split] *)
(* ===================================================================== *)

Definition msPerDay : Z := 86400000.

(** Year, month (1-12) and day of month of the proleptic Gregorian
    calendar, from the number of days since 1970-01-01. *)
Definition civil_from_days (days : Z) : Z * Z * Z :=
  let z := days + 719468 in
  let era := z / 146097 in
  let doe := z - era * 146097 in
  let yoe := (doe - doe / 1460 + doe / 36524 - doe / 146096) / 365 in
  let doy := doe - (365 * yoe + yoe / 4 - yoe / 100) in
  let mp := (5 * doy + 2) / 153 in
  let d := doy - (153 * mp + 2) / 5 + 1 in
  let m := if mp <? 10 then mp + 3 else mp - 9 in
  let y := yoe + era * 400 + (if m <=? 2 then 1 else 0) in
  (y, m, d).

(** [YYYY-MM-DD] of a calendar date; years outside 0..9999 take the
    expanded form with a sign and six digits. *)
Definition iso_date (ymd : Z * Z * Z) : string :=
  let '(y, m, d) := ymd in
  (if (0 <=? y) && (y <=? 9999) then padded 4 y
   else (if y <? 0 then "-" else "+") ++ padded 6 (Z.abs y))
  ++ "-" ++ padded 2 m ++ "-" ++ padded 2 d.

(** [new Date(t).toISOString()] for a time value [t] (milliseconds since
    the epoch, UTC). *)
Definition Date_toISOString (t : Z) : string :=
  let ms := t mod msPerDay in
  iso_date (civil_from_days (t / msPerDay))
  ++ "T" ++ padded 2 (ms / 3600000) ++ ":" ++ padded 2 (ms / 60000 mod 60)
  ++ ":" ++ padded 2 (ms / 1000 mod 60) ++ "." ++ padded 3 (ms mod 1000) ++ "Z".

(** [s.split(sep)[0]] for a one-character separator. *)
Fixpoint split_first (sep : ascii) (s : string) : string :=
  match s with
  | EmptyString => EmptyString
  | String c rest => if Ascii.eqb c sep then EmptyString else String c (split_first sep rest)
  end.

(* ===================================================================== *)
(** * The page environment *)
(* ===================================================================== *)

(** [apiConfig], imported from [./api.config.js]. *)
Record ApiConfig : Type := {
  apiUrl : string;
  apiKey : string;
  defaultInterval : string
}.

(** What one page load reads from outside: the decoded query string, the
    two readings of the clock ([new Date()] when the date defaults, and
    [new Date().getTime()]), and the answer of the network to a request
    ([response.json()], or a rejection). *)
Record Browser : Type := {
  location_search : list (string * string);
  clock_today : Z;
  clock_getTime : Z;
  network : string -> string -> completion jsval
}.

(** [localStorage], restricted to the two items of this program.  The
    string kept under [lastRequestTime] is the decimal text of an integer
    time value and is represented by that integer; the string kept under
    [pollenData] is a JSON text.  [None] is a missing item ([getItem]
    answers [null]). *)
Record Storage : Type := {
  item_lastRequestTime : option Z;
  item_pollenData : option json
}.

(** Observable actions, oldest first. *)
Inductive event : Type :=
| ConsoleLog (message : string)
| DateDisplay (dateString : string)
    (* dateDisplay.textContent = getHumanReadableDate(dateString) *)
| HttpGet (url : string) (psKey : string).

Record World : Type := {
  localStorage : Storage;
  trace : list event
}.

(** Statements: a state transformer over [World] that may throw. *)
Definition M (A : Type) : Type := World -> completion A * World.

Definition ret {A} (a : A) : M A := fun w => (Normal a, w).

Definition bind {A B} (m : M A) (k : A -> M B) : M B :=
  fun w =>
    match m w with
    | (Normal a, w') => k a w'
    | (Throw e, w') => (Throw e, w')
    end.

Declare Scope js_scope.
Delimit Scope js_scope with js.
Notation "x <- m ;; k" := (bind m (fun x => k))
  (at level 61, m at next level, right associativity) : js_scope.
Notation "m ;; k" := (bind m (fun _ => k))
  (at level 61, right associativity) : js_scope.

Definition lift {A} (c : completion A) : M A := fun w => (c, w).

Definition emit (e : event) : M unit :=
  fun w => (Normal tt, {| localStorage := localStorage w; trace := trace w ++ [e] |}).

Definition getItem_lastRequestTime : M (option Z) :=
  fun w => (Normal (item_lastRequestTime (localStorage w)), w).

Definition getItem_pollenData : M (option json) :=
  fun w => (Normal (item_pollenData (localStorage w)), w).

Definition setItem_pollenData (text : json) : M unit :=
  fun w => (Normal tt,
            {| localStorage :=
                 {| item_lastRequestTime := item_lastRequestTime (localStorage w);
                    item_pollenData := Some text |};
               trace := trace w |}).

Definition setItem_lastRequestTime (t : Z) : M unit :=
  fun w => (Normal tt,
            {| localStorage :=
                 {| item_lastRequestTime := Some t;
                    item_pollenData := item_pollenData (localStorage w) |};
               trace := trace w |}).

(* ===================================================================== *)
(** * js/pollen-feed.js *)
(* ===================================================================== *)

(** [ToBoolean] of a value that is a string or [null]. *)
Definition nonempty (s : option string) : bool :=
  match s with
  | Some t => negb (String.eqb t "")
  | None => false
  end.

Fixpoint URLSearchParams_get (params : list (string * string)) (name : string)
  : option string :=
  match params with
  | [] => None
  | (k, v) :: rest => if String.eqb k name then Some v else URLSearchParams_get rest name
  end.

Definition getFormattedDateUTC (dateString : string) (isEndOfDay : bool) : string :=
  let timePart := if isEndOfDay then "23:59:59" else "00:00:00" in
  let formattedDate := dateString ++ "T" ++ timePart ++ "Z" in
  formattedDate.

Definition oneHourInMilliseconds : Z := 60 * 60 * 1000.

(** The freshness test of line 89:
    [currentTime - lastRequestTime < oneHourInMilliseconds]. *)
Definition withinLastHour (currentTime lastRequestTime : Z) : bool :=
  currentTime - lastRequestTime <? oneHourInMilliseconds.

(** The callback of line 113: [category.CategoryCode === code]. *)
Definition codeMatches (code : string) (category : jsval) : completion bool :=
  cbind (get_prop category "CategoryCode") (fun c =>
  Normal (strict_equals_str c code)).

(** The callback of lines 112-114: [data.Categories.find(...)]; a
    [Categories] that is not an array has no [find] to call. *)
Definition findCategory (data : jsval) (code : string) : completion jsval :=
  cbind (get_prop data "Categories") (fun Categories =>
  match Categories with
  | JArr elems => Array_find (codeMatches code) elems
  | _ => Throw TypeError
  end).

(** Lines 110-115: the object cached and returned after a fetch.
    [data.Moments] is read first, then one [find] per requested code. *)
Definition responseData (data : jsval) (categoryCodes : list string) : completion jsval :=
  cbind (get_prop data "Moments") (fun moments =>
  cbind (Array_map (findCategory data) categoryCodes) (fun categories =>
  Normal (JObj [("moments", moments); ("categories", JArr categories)]))).

Section Page.

Variable apiConfig : ApiConfig.
Variable browser : Browser.

Definition getUrlParameter (name : string) : option string :=
  URLSearchParams_get (location_search browser) name.

(** Lines 62-70: the date the request is made for. *)
Definition urlDate : string :=
  match getUrlParameter "date" with
  | Some d => if negb (String.eqb d "") then d
              else split_first "T" (Date_toISOString (clock_today browser))
  | None => split_first "T" (Date_toISOString (clock_today browser))
  end.

Definition noCache : bool :=
  match getUrlParameter "noCache" with
  | Some v => String.eqb v "true"
  | None => false
  end.

Definition startingDate : string := getFormattedDateUTC urlDate false.
Definition endingDate : string := getFormattedDateUTC urlDate true.

(** Lines 97-99: the request URL. *)
Definition requestUrl : string :=
  let interval := getUrlParameter "interval" in
  apiUrl apiConfig ++ "?interval="
  ++ (if nonempty interval
      then match interval with Some i => i | None => "" end
      else defaultInterval apiConfig)
  ++ "&starting=" ++ startingDate ++ "&ending=" ++ endingDate.

Definition fetch (url psKey : string) : M jsval :=
  fun w =>
    (network browser url psKey,
     {| localStorage := localStorage w; trace := trace w ++ [HttpGet url psKey] |}).

(** The test of line 89, on the values read at lines 82, 83 and 87. *)
Definition useCache (lastRequestTime : option Z) (storedPollenData : jsval)
           (currentTime : Z) : bool :=
  negb noCache
  && match lastRequestTime with
     | Some t => truthy storedPollenData && withinLastHour currentTime t
     | None => false
     end.

Local Open Scope js_scope.

Definition getDataByCategory (categoryCodes : list string) : M jsval :=
  (if negb (String.eqb urlDate "") then emit (DateDisplay urlDate) else ret tt) ;;
  lastRequestTime <- getItem_lastRequestTime ;;
  storedText <- getItem_pollenData ;;
  let storedPollenData :=
    match storedText with
    | Some text => JSON_parse text
    | None => JNull                      (* JSON.parse(null) *)
    end in
  let currentTime := clock_getTime browser in
  if useCache lastRequestTime storedPollenData currentTime
  then
    emit (ConsoleLog "Using cached data") ;;
    ret storedPollenData
  else
    emit (ConsoleLog "Fetching new data from API") ;;
    data <- fetch requestUrl (apiKey apiConfig) ;;
    fetched <- lift (responseData data categoryCodes) ;;
    match JSON_stringify fetched with
    | Some text => setItem_pollenData text
    | None => ret tt                     (* not reached: [fetched] is an object *)
    end ;;
    setItem_lastRequestTime currentTime ;;
    ret fetched.

End Page.

(* ===================================================================== *)
(** * The selection inside [displayGaugesForCategories] *)
(* ===================================================================== *)

(** An entry of [Categories] as the renderer reads it.  [None] in a
    series is [null]; [Misery = None] is a missing (or null) property. *)
Record CategoryData : Type := {
  CategoryCode : string;
  CategoryDescription : option string;
  PPM3 : list (option float);
  Misery : option (list (option float))
}.

(** Lines 142-147, with [candidates = latestValidIndex + 1]: the loop
    steps down while the element is [null] and stops at [-1]. *)
Fixpoint scanBackward (series : list (option float)) (candidates : nat) : Z :=
  match candidates with
  | O => -1
  | S i =>
      match nth_error series i with
      | Some None => scanBackward series i
      | _ => Z.of_nat i
      end
  end.

(** [ToNumber(series[i])]: a number is itself, [null] is [+0], and a
    read past the end ([undefined]) is [NaN]. *)
Definition ToNumber_at (series : list (option float)) (i : nat) : float :=
  match nth_error series i with
  | Some (Some x) => x
  | Some None => PrimFloat.zero
  | None => PrimFloat.nan
  end.

Record Reading : Type := {
  latestValidIndex : nat;
  latestPPM : float;
  latestMisery : string;
  latestTime : option string
}.

(** Lines 139-156 of the [forEach] callback, for an entry that is
    present: [None] is the early [return] (no gauge for this category). *)
Definition latestReading (categoryData : CategoryData) (moments : list string)
  : option Reading :=
  let index := scanBackward (PPM3 categoryData) (length (PPM3 categoryData)) in
  if index =? -1 then None
  else
    match nth_error (PPM3 categoryData) (Z.to_nat index) with
    | Some (Some ppm) =>
        Some {| latestValidIndex := Z.to_nat index;
                latestPPM := ppm;
                latestMisery :=
                  match Misery categoryData with
                  | Some misery =>
                      toFixed2 (ToNumber_at misery (Z.to_nat index) * 100)%float
                  | None => "N/A"
                  end;
                latestTime := nth_error moments (Z.to_nat index) |}
    | _ => None   (* not reached: the scan stops on a non-null element *)
    end.

(* ===================================================================== *)
(** * Notions of the specification *)
(* ===================================================================== *)

Definition is_digit (c : ascii) : bool :=
  (48 <=? N_of_ascii c)%N && (N_of_ascii c <=? 57)%N.

(** The date format of the [date] query parameter: [YYYY-MM-DD]. *)
Definition is_YYYY_MM_DD (s : string) : bool :=
  match list_ascii_of_string s with
  | [y1; y2; y3; y4; h1; m1; m2; h2; d1; d2] =>
      forallb is_digit [y1; y2; y3; y4; m1; m2; d1; d2]
      && Ascii.eqb h1 "-" && Ascii.eqb h2 "-"
  | _ => false
  end.

(** The calendar date in UTC at time value [t]. *)
Definition utc_calendar_date (t : Z) : string :=
  iso_date (civil_from_days (t / msPerDay)).

(** The text [YYYY-MM-DDTHH:MM:SSZ] of the instant [t], to the second:
    the form in which the API takes [starting] and [ending]. *)
Definition iso_instant (t : Z) : string :=
  let ms := t mod msPerDay in
  iso_date (civil_from_days (t / msPerDay))
  ++ "T" ++ padded 2 (ms / 3600000) ++ ":" ++ padded 2 (ms / 60000 mod 60)
  ++ ":" ++ padded 2 (ms / 1000 mod 60) ++ "Z".

(** The local calendar date at time value [t], for a zone whose
    [getTimezoneOffset()] is [offsetMinutes] (UTC minus local time). *)
Definition local_calendar_date (t offsetMinutes : Z) : string :=
  iso_date (civil_from_days ((t - offsetMinutes * 60000) / msPerDay)).

(** The requested date as the specification words it: the current local
    date when the parameter is absent or malformed, else the parameter. *)
Definition spec_resolveRequestedDate (rawParam : option string) (t offsetMinutes : Z)
  : string :=
  match rawParam with
  | Some d => if is_YYYY_MM_DD d then d else local_calendar_date t offsetMinutes
  | None => local_calendar_date t offsetMinutes
  end.

(** [CategoryCode] of a response entry equals [code]. *)
Definition has_code (code : string) (category : jsval) : bool :=
  match category with
  | JObj props => strict_equals_str (lookup_prop "CategoryCode" props) code
  | _ => false
  end.

(** The entries of [Categories] of a response. *)
Definition Categories_of (data : jsval) : list jsval :=
  match data with
  | JObj props =>
      match lookup_prop "Categories" props with
      | JArr elems => elems
      | _ => []
      end
  | _ => []
  end.

(** The projection as the specification words it: each requested code
    mapped, in order, to the first entry with that code, or absent. *)
Definition spec_categories (data : jsval) (categoryCodes : list string) : list jsval :=
  map (fun code =>
         match find (has_code code) (Categories_of data) with
         | Some category => category
         | None => JUndefined
         end) categoryCodes.

(** A response whose [Categories] is an array without [null] holes. *)
Definition response_ok (data : jsval) : Prop :=
  match data with
  | JObj props =>
      match lookup_prop "Categories" props with
      | JArr elems => Forall (fun c => c <> JNull /\ c <> JUndefined) elems
      | _ => False
      end
  | _ => False
  end.

(** Numbers that a JSON text carries unchanged: finite, and not [-0]. *)
Definition json_number (x : float) : bool :=
  PrimFloat.is_finite x
  && (negb (PrimFloat.is_zero x) || PrimFloat.Leibniz.eqb x PrimFloat.zero).

(** Values that a JSON text carries unchanged: no [undefined] anywhere,
    and only such numbers. *)
Fixpoint json_exact (v : jsval) : bool :=
  match v with
  | JUndefined => false
  | JNull | JBool _ | JStr _ => true
  | JNum x => json_number x
  | JArr elems => forallb json_exact elems
  | JObj props => forallb (fun p => json_exact (snd p)) props
  end.

(** [c] occurs in [s]. *)
Fixpoint occurs (c : ascii) (s : string) : bool :=
  match s with
  | EmptyString => false
  | String c' rest => Ascii.eqb c' c || occurs c rest
  end.

(** [data.Moments], where the read does not throw. *)
Definition Moments_of (data : jsval) : jsval :=
  match get_prop data "Moments" with
  | Normal moments => moments
  | Throw _ => JUndefined
  end.

(** The value of [storedPollenData] (line 83) in a given world. *)
Definition storedPollenData (w : World) : jsval :=
  match item_pollenData (localStorage w) with
  | Some text => JSON_parse text
  | None => JNull
  end.

(** The branch that a page load takes in a given world. *)
Definition cacheHit (browser : Browser) (w : World) : bool :=
  useCache browser (item_lastRequestTime (localStorage w)) (storedPollenData w)
           (clock_getTime browser).

(** The event of lines 77-79. *)
Definition dateDisplayEvents (browser : Browser) : list event :=
  if negb (String.eqb (urlDate browser) "") then [DateDisplay (urlDate browser)] else [].

(** The world after the events of a load that fetches. *)
Definition fetching_world (apiConfig : ApiConfig) (browser : Browser) (w : World)
  : World :=
  {| localStorage := localStorage w;
     trace := trace w ++ dateDisplayEvents browser
              ++ [ConsoleLog "Fetching new data from API";
                  HttpGet (requestUrl apiConfig browser) (apiKey apiConfig)] |}.

(* ===================================================================== *)
(** * Example data *)
(* ===================================================================== *)

Definition example_config : ApiConfig :=
  {| apiUrl := "https://sensors.example/api/sites/1/metrics";
     apiKey := "k";
     defaultInterval := "hour" |}.

Definition example_POL : jsval :=
  JObj [("CategoryCode", JStr "POL");
        ("CategoryDescription", JStr "Pollen");
        ("PPM3", JArr [JNum 1.0; JNull; JNum 2.0; JNull]);
        ("Misery", JArr [JNum 0.25; JNull; JNum 0.5; JNull])]%float.

Definition example_GRA : jsval :=
  JObj [("CategoryCode", JStr "GRA");
        ("CategoryDescription", JStr "Grass");
        ("PPM3", JArr [JNum 3.0; JNum 4.0; JNull; JNull])]%float.

Definition example_Moments : jsval :=
  JArr [JStr "2024-09-12T00:00:00Z"; JStr "2024-09-12T01:00:00Z";
        JStr "2024-09-12T02:00:00Z"; JStr "2024-09-12T03:00:00Z"].

Definition example_response : jsval :=
  JObj [("Moments", example_Moments);
        ("Categories", JArr [example_GRA; example_POL])].

(** 2024-09-12T12:00:00.000Z. *)
Definition example_noon : Z := 1726142400000.

Definition example_browser (search : list (string * string)) (now : Z) : Browser :=
  {| location_search := search;
     clock_today := now;
     clock_getTime := now;
     network := fun _ _ => Normal example_response |}.

(** A response with an overflowing literal (read as [Infinity]) and a
    negative zero. *)
Definition example_response_extremes : jsval :=
  JObj [("Moments", JArr [JStr "2024-09-12T00:00:00Z"; JStr "2024-09-12T01:00:00Z"]);
        ("Categories",
         JArr [JObj [("CategoryCode", JStr "MOL");
                     ("PPM3", JArr [JNum PrimFloat.infinity; JNum PrimFloat.neg_zero])]])].

Definition example_browser_extremes (search : list (string * string)) (now : Z)
  : Browser :=
  {| location_search := search;
     clock_today := now;
     clock_getTime := now;
     network := fun _ _ => Normal example_response_extremes |}.

Definition empty_world : World :=
  {| localStorage := {| item_lastRequestTime := None; item_pollenData := None |};
     trace := [] |}.

(** A world whose store was filled at [example_noon] for [POL]. *)
Definition example_cached_world : World :=
  {| localStorage :=
       {| item_lastRequestTime := Some example_noon;
          item_pollenData :=
            Some (TObj [("moments", TArr [TStr "2024-09-12T00:00:00Z"]);
                        ("categories",
                         TArr [TObj [("CategoryCode", TStr "POL");
                                     ("PPM3", TArr [TNum 1.0%float])]])]) |};
     trace := [] |}.

(* ===================================================================== *)
(** * More built-ins: [split], [parseInt] *)
(* ===================================================================== *)

(** [s.split(sep)] for a one-character separator; the result is never
    empty (the empty string splits into one empty piece).  [join] is
    [String.concat]. *)
Fixpoint split (sep : ascii) (s : string) : list string :=
  match s with
  | EmptyString => [EmptyString]
  | String c rest =>
      if Ascii.eqb c sep then EmptyString :: split sep rest
      else match split sep rest with
           | piece :: pieces => String c piece :: pieces
           | [] => [String c EmptyString]
           end
  end.

(** How often [c] occurs in [s]. *)
Fixpoint count_char (c : ascii) (s : string) : nat :=
  match s with
  | EmptyString => O
  | String c' rest => (if Ascii.eqb c' c then 1 else 0) + count_char c rest
  end.

(** An integral Number, as [parseInt] returns it.  Positive and negative
    zero are both [NInt 0]: the operations applied to the hour ([>=], [%],
    [||]) do not tell them apart. *)
Inductive intnum : Type :=
| NNaN
| NInfinity (negative : bool)
| NInt (v : Z).

(** White space among the code units below 256. *)
Definition is_whitespace (c : ascii) : bool :=
  let n := N_of_ascii c in
  ((9 <=? n) && (n <=? 13) || (n =? 32) || (n =? 160))%N.

Fixpoint trim_start (s : string) : string :=
  match s with
  | String c rest => if is_whitespace c then trim_start rest else s
  | EmptyString => EmptyString
  end.

(** The value of the longest prefix of decimal digits, given the value
    [acc] of the digits read so far ([None]: no digit yet). *)
Fixpoint leading_digits (s : string) (acc : option Z) : option Z :=
  match s with
  | String c rest =>
      if is_digit c
      then leading_digits rest
             (Some (10 * match acc with Some a => a | None => 0 end
                    + (Z.of_N (N_of_ascii c) - 48)))
      else acc
  | EmptyString => acc
  end.

(** The Number nearest to a non-negative integer, with a sign: the double
    is integral again, or infinite beyond the range. *)
Definition Number_of_integer (negative : bool) (mathInt : Z) : intnum :=
  match Prim2SF (float_of_Z mathInt) with
  | S754_zero _ => NInt 0
  | S754_infinity _ => NInfinity negative
  | S754_nan => NNaN
  | S754_finite _ m e =>
      let magnitude := if 0 <=? e then Zpos m * 2 ^ e else Zpos m / 2 ^ (- e) in
      NInt (if negative then - magnitude else magnitude)
  end.

(** [parseInt(s, 10)]: leading white space, an optional sign, then as
    many decimal digits as there are; [NaN] when there is none. *)
Definition parseInt10 (s : string) : intnum :=
  let S := trim_start s in
  let negative := match S with String "-" _ => true | _ => false end in
  let digits :=
    match S with
    | String "-" rest => rest
    | String "+" rest => rest
    | _ => S
    end in
  match leading_digits digits None with
  | None => NNaN
  | Some mathInt => Number_of_integer negative mathInt
  end.

(** [String(n)] for an integer of small magnitude. *)
Definition show_int (n : Z) : string :=
  if n <? 0 then "-" ++ decimal (- n) else decimal n.

(* ===================================================================== *)
(** * The rest of [displayGaugesForCategories] and [init] *)
(* ===================================================================== *)

(** [hour >= 12] (line 177). *)
Definition atLeast12 (hour : intnum) : bool :=
  match hour with
  | NNaN => false
  | NInfinity negative => negb negative
  | NInt v => 12 <=? v
  end.

(** [hour % 12 || 12] (line 178): the remainder has the sign of the
    dividend; zero and [NaN] (also the remainder of an infinity) give 12. *)
Definition hour12 (hour : intnum) : Z :=
  match hour with
  | NNaN | NInfinity _ => 12
  | NInt v => if Z.rem v 12 =? 0 then 12 else Z.rem v 12
  end.

(** Lines 172-181: the text of the time label.  [latestTime] is
    [moments[latestValidIndex]], [None] when the index is past the end. *)
Definition timeLabelText (interval : option string) (latestTime : option string)
  : completion string :=
  match latestTime with
  | None => Throw TypeError                        (* undefined.split('T') *)
  | Some moment =>
      match nth_error (split "T" moment) 1 with
      | None => Throw TypeError                    (* undefined.split(':') *)
      | Some afterT =>
          let time := String.concat ":" (firstn 2 (split ":" afterT)) in
          let parts := split ":" time in
          let hour := parseInt10 (match parts with h :: _ => h | [] => "undefined" end) in
          let minute := match nth_error parts 1 with Some m => m | None => "undefined" end in
          let ampm := if atLeast12 hour then "PM" else "AM" in
          Normal (if match interval with Some i => String.eqb i "day" | None => false end
                  then ""
                  else "As of " ++ show_int (hour12 hour) ++ ":" ++ minute ++ " " ++ ampm)
      end
  end.

(** What one pass of the callback appends to [gaugeContainer]: the
    category label, the canvas and the time label, and the value given to
    the gauge drawn on the canvas.  (The PPM label is built but its
    [appendChild] is commented out.) *)
Record GaugeView : Type := {
  categoryLabel : string;
  canvasId : string;
  timeLabel : string;
  gaugeValue : string
}.

(** The [forEach] callback (lines 138-214) for the entry at [index]:
    [Normal None] is an early [return]. *)
Definition drawCategory (interval : option string) (moments : list string)
           (index : nat) (categoryData : option CategoryData)
  : completion (option GaugeView) :=
  match categoryData with
  | None => Normal None
  | Some c =>
      match latestReading c moments with
      | None => Normal None
      | Some r =>
          cbind (timeLabelText interval (latestTime r)) (fun text =>
          Normal (Some {| categoryLabel :=
                            if nonempty (CategoryDescription c)
                            then match CategoryDescription c with
                                 | Some d => d
                                 | None => ""
                                 end
                            else "Unknown Category";
                          canvasId := "gaugeCanvas" ++ decimal (Z.of_nat index + 1);
                          timeLabel := text;
                          gaugeValue := latestMisery r |}))
      end
  end.

(** [categoriesData.forEach(...)] from position [index] on, appending to
    the container; a throw ends the loop and leaves what was appended. *)
Fixpoint forEach_draw (interval : option string) (moments : list string)
         (index : nat) (categoriesData : list (option CategoryData))
         (container : list GaugeView) : completion unit * list GaugeView :=
  match categoriesData with
  | [] => (Normal tt, container)
  | categoryData :: rest =>
      match drawCategory interval moments index categoryData with
      | Throw e => (Throw e, container)
      | Normal None => forEach_draw interval moments (S index) rest container
      | Normal (Some g) =>
          forEach_draw interval moments (S index) rest (container ++ [g])
      end
  end.

(** [displayGaugesForCategories]: the container is emptied, then filled.
    An entry of [categoriesData] that is [undefined] or [null] is [None]. *)
Definition displayGaugesForCategories (browser : Browser)
           (categoriesData : list (option CategoryData)) (moments : list string)
  : completion unit * list GaugeView :=
  forEach_draw (getUrlParameter browser "interval") moments 0 categoriesData [].

(** An entry that is present and holds at least one PPM value. *)
Definition hasReading (categoryData : option CategoryData) : bool :=
  match categoryData with
  | Some c => existsb (fun v => match v with Some _ => true | None => false end) (PPM3 c)
  | None => false
  end.

(** The URLs of the HTTP requests in a trace. *)
Fixpoint requests (tr : list event) : list string :=
  match tr with
  | [] => []
  | HttpGet url _ :: rest => url :: requests rest
  | _ :: rest => requests rest
  end.

(** Lines 222-223 of [init]: the requested category codes. *)
Definition init_categoryCodes (browser : Browser) : list string :=
  match getUrlParameter browser "categoryCodes" with
  | Some categoryCodesParam =>
      if negb (String.eqb categoryCodesParam "")
      then split "," categoryCodesParam
      else ["POL"]
  | None => ["POL"]
  end.

(** Lines 222-226 of [init]: the fetch for the codes of the page. *)
Definition init_getData (apiConfig : ApiConfig) (browser : Browser) : M jsval :=
  getDataByCategory apiConfig browser (init_categoryCodes browser).

(* ===================================================================== *)
(** * public/js/gauge.config.js *)
(* ===================================================================== *)

Record StaticZone : Type := {
  strokeStyle : string;
  zone_min : Z;
  zone_max : Z
}.

(** [gaugeOptions.staticZones]. *)
Definition staticZones : list StaticZone :=
  [ {| strokeStyle := "#30B32D"; zone_min := 0; zone_max := 24 |};
    {| strokeStyle := "#FFDD00"; zone_min := 25; zone_max := 49 |};
    {| strokeStyle := "#F39C12"; zone_min := 50; zone_max := 74 |};
    {| strokeStyle := "#E74C3C"; zone_min := 75; zone_max := 100 |} ].

(** The zones that hold a gauge value given in hundredths of a percent
    point (the two decimals of [toFixed(2)]). *)
Definition zones_at (hundredths : Z) : list StaticZone :=
  filter (fun z => (100 * zone_min z <=? hundredths) && (hundredths <=? 100 * zone_max z))
         staticZones.

(* ===================================================================== *)
(** * The mold page of version 1.0.0: [init] and the Misery text *)
(* ===================================================================== *)

(** [v !== null]. *)
Definition notNull {A : Type} (v : option A) : bool :=
  match v with
  | Some _ => true
  | None => false
  end.

(** [l.filter((_, index) => keep(index))], for the elements from
    position [index] on. *)
Fixpoint filter_by_index {A : Type} (keep : nat -> bool) (index : nat) (l : list A)
  : list A :=
  match l with
  | [] => []
  | x :: rest =>
      if keep index then x :: filter_by_index keep (S index) rest
      else filter_by_index keep (S index) rest
  end.

(** [series[index] !== null]: a read past the end is [undefined], which
    is not [null]. *)
Definition notNullAt (series : list (option float)) (index : nat) : bool :=
  match nth_error series index with
  | Some None => false
  | _ => true
  end.

(** [l.slice(-n)]: the last [n] elements, or all of them. *)
Definition slice_last {A : Type} (n : nat) (l : list A) : list A :=
  skipn (length l - n) l.

Record MoldSelection : Type := {
  lastFourPPM : list (option float);
  lastFourMoments : list string;
  lastFourMisery : list (option float)
}.

(** [init] of the mold page: the three arguments of [displayGauges]. *)
Definition moldInit (moments : list string) (PPM3 Misery : list (option float))
  : MoldSelection :=
  let validPPM := filter notNull PPM3 in
  let validMoments := filter_by_index (notNullAt PPM3) 0 moments in
  let validMisery := filter notNull Misery in
  {| lastFourPPM := slice_last 4 validPPM;
     lastFourMoments := slice_last 4 validMoments;
     lastFourMisery := slice_last 4 validMisery |}.

(** [displayGauges] of the mold page, first line of the callback: the
    Misery text of the gauge at [index]. *)
Definition moldMiseryValue (miseryValues : list (option float)) (index : nat) : string :=
  match nth_error miseryValues index with
  | Some (Some x) =>
      if truthy (JNum x) then toFixed2 (x * 100)%float else "N/A"
  | _ => "N/A"
  end.

(* ===================================================================== *)
(** * The built-ins on known values *)
(* ===================================================================== *)

Example toFixed2_samples :
  toFixed2 (0.25 * 100)%float = "25.00"
  /\ toFixed2 0.125%float = "0.13"
  /\ toFixed2 (-2.5)%float = "-2.50"
  /\ toFixed2 (PrimFloat.zero * 100)%float = "0.00"
  /\ toFixed2 (PrimFloat.nan * 100)%float = "NaN"
  /\ toFixed2 1e21%float = "1e+21"
  /\ toFixed2 1180591620717411303424%float = "1.1805916207174113e+21".
Proof. repeat split; vm_compute; reflexivity. Qed.

Example Date_toISOString_samples :
  Date_toISOString 0 = "1970-01-01T00:00:00.000Z"
  /\ Date_toISOString example_noon = "2024-09-12T12:00:00.000Z"
  /\ Date_toISOString 1709251199999 = "2024-02-29T23:59:59.999Z"
  /\ Date_toISOString (-1) = "1969-12-31T23:59:59.999Z"
  /\ Date_toISOString 253402300800000 = "+010000-01-01T00:00:00.000Z".
Proof. repeat split; vm_compute; reflexivity. Qed.

Example JSON_samples :
  JSON_stringify (JArr [JUndefined; JNum PrimFloat.nan; JNum 1.5%float])
  = Some (TArr [TNull; TNull; TNum 1.5%float])
  /\ JSON_stringify (JObj [("a", JUndefined); ("b", JNull)])
     = Some (TObj [("b", TNull)])
  /\ JSON_stringify JUndefined = None.
Proof. repeat split; reflexivity. Qed.

(* ===================================================================== *)
(** * Series Selector *)
(* ===================================================================== *)

Section Selection.

Local Open Scope nat_scope.

(** The scan ends either at [-1], every candidate being [null], or at
    the greatest candidate index that holds a number. *)
Lemma scanBackward_spec (series : list (option float)) (n : nat) :
  n <= length series ->
  (scanBackward series n = (-1)%Z
   /\ forall j, j < n -> nth_error series j = Some None)
  \/ (exists i x,
        scanBackward series n = Z.of_nat i
        /\ i < n
        /\ nth_error series i = Some (Some x)
        /\ forall j, i < j < n -> nth_error series j = Some None).
Proof.
  induction n as [|n IH]; intros Hn.
  - left. split; [reflexivity | intros j Hj; lia].
  - simpl.
    destruct (nth_error series n) as [[x|]|] eqn:E.
    + right. exists n, x. repeat split; auto. intros j Hj; lia.
    + destruct IH as [[H1 H2]|(i & x & H1 & H2 & H3 & H4)]; [lia | |].
      * left. split; [exact H1|]. intros j Hj.
        destruct (Nat.eq_dec j n) as [->|Hne]; [exact E | apply H2; lia].
      * right. exists i, x. repeat split; auto.
        intros j Hj. destruct (Nat.eq_dec j n) as [->|Hne]; [exact E | apply H4; lia].
    + apply nth_error_None in E. lia.
Qed.

Lemma all_null_Forall (series : list (option float)) :
  (forall j, j < length series -> nth_error series j = Some None) ->
  Forall (fun v => v = None) series.
Proof.
  intros H. apply Forall_forall. intros v Hin.
  destruct (In_nth_error _ _ Hin) as [j Hj].
  assert (j < length series) by (apply nth_error_Some; congruence).
  rewrite (H j) in Hj by assumption. congruence.
Qed.

(** What [latestReading] returns, in terms of the series alone. *)
Lemma latestReading_cases (c : CategoryData) (moments : list string) :
  (latestReading c moments = None /\ Forall (fun v => v = None) (PPM3 c))
  \/ (exists i x,
        latestReading c moments =
          Some {| latestValidIndex := i;
                  latestPPM := x;
                  latestMisery :=
                    match Misery c with
                    | Some misery => toFixed2 (ToNumber_at misery i * 100)%float
                    | None => "N/A"
                    end;
                  latestTime := nth_error moments i |}
        /\ i < length (PPM3 c)
        /\ nth_error (PPM3 c) i = Some (Some x)
        /\ forall j, i < j < length (PPM3 c) -> nth_error (PPM3 c) j = Some None).
Proof.
  unfold latestReading.
  destruct (scanBackward_spec (PPM3 c) (length (PPM3 c)) (le_n _))
    as [[H1 H2]|(i & x & H1 & H2 & H3 & H4)].
  - left. rewrite H1. simpl. split; [reflexivity | now apply all_null_Forall].
  - right. exists i, x. rewrite H1.
    replace (Z.of_nat i =? -1)%Z with false by (symmetry; apply Z.eqb_neq; lia).
    rewrite Nat2Z.id, H3. auto.
Qed.

End Selection.

(** C1. The latest-valid selection scans [PPM3] from the last index
    backward: it returns the greatest index whose value is not null,
    together with that value, and returns nothing exactly when every
    value is null (in particular on the empty series); on
    [1.0, null, 2.0, null] it returns index 2 with ppm 2.0, and on
    [null, null] it returns nothing. *)
Theorem C1_latest_valid_scan :
  (forall (c : CategoryData) (moments : list string),
      match latestReading c moments with
      | Some r =>
          nth_error (PPM3 c) (latestValidIndex r) = Some (Some (latestPPM r))
          /\ (forall j, (latestValidIndex r < j < length (PPM3 c))%nat ->
                        nth_error (PPM3 c) j = Some None)
      | None => Forall (fun v => v = None) (PPM3 c)
      end)
  /\ (forall (c : CategoryData) (moments : list string),
         Forall (fun v => v = None) (PPM3 c) -> latestReading c moments = None)
  /\ (forall code description misery moments,
         let c := {| CategoryCode := code; CategoryDescription := description;
                     PPM3 := [Some 1.0; None; Some 2.0; None]%float;
                     Misery := misery |} in
         exists r, latestReading c moments = Some r
                   /\ latestValidIndex r = 2%nat /\ latestPPM r = 2.0%float)
  /\ (forall code description misery moments,
         latestReading {| CategoryCode := code; CategoryDescription := description;
                          PPM3 := [None; None]; Misery := misery |} moments = None)
  /\ (forall code description misery moments,
         latestReading {| CategoryCode := code; CategoryDescription := description;
                          PPM3 := []; Misery := misery |} moments = None).
Proof.
  split; [|split; [|split; [|split]]].
  - intros c moments.
    destruct (latestReading_cases c moments) as [[-> H]|(i & x & -> & _ & H1 & H2)].
    + exact H.
    + simpl. split; assumption.
  - intros c moments Hall.
    destruct (latestReading_cases c moments) as [[-> _]|(i & x & _ & _ & H1 & _)].
    + reflexivity.
    + apply nth_error_In in H1.
      rewrite Forall_forall in Hall. specialize (Hall _ H1). discriminate.
  - intros. eexists. split; [reflexivity | split; reflexivity].
  - reflexivity.
  - reflexivity.
Qed.

(** [toFixed(2)] never prints the marker ['N/A']. *)
Lemma exponent_notation_not_NA (V : Z) (prefix : string) :
  prefix = "" \/ prefix = "-" ->
  prefix ++ exponent_notation V <> "N/A".
Proof.
  unfold exponent_notation.
  intros [-> | ->]; destruct (significant_digits V) as [|d [|c r]];
    cbn [append]; intros H; discriminate H.
Qed.

Lemma fixed_notation_not_NA (q k : Z) (prefix : string) :
  prefix = "" \/ prefix = "-" ->
  prefix ++ decimal q ++ "." ++ padded 2 k <> "N/A".
Proof.
  intros [-> | ->]; cbn [append padded]; [|intros H; discriminate H].
  destruct (decimal q) as [|c [|c1 [|c2 r]]]; cbn [append]; intros H;
    try discriminate H.
  inversion H as [[Hc Hc1 Hc2 Hr]]. destruct r; discriminate Hr.
Qed.

Lemma toFixed2_not_NA (x : float) : toFixed2 x <> "N/A".
Proof.
  unfold toFixed2.
  destruct (Prim2SF x) as [s|s| |s m e]; try destruct s; try discriminate;
    match goal with
    | |- context [if ?b then _ ++ exponent_notation _ else _] => destruct b
    end;
    first [ apply exponent_notation_not_NA | apply fixed_notation_not_NA ];
    auto.
Qed.

(** When a gauge is drawn, the marker ['N/A'] stands exactly for a
    missing [Misery] sequence. *)
Lemma latestMisery_NA_iff (c : CategoryData) (moments : list string) (r : Reading) :
  latestReading c moments = Some r ->
  (latestMisery r = "N/A" <-> Misery c = None).
Proof.
  intros H.
  destruct (latestReading_cases c moments) as [[H0 _]|(i & x & H0 & _)];
    rewrite H0 in H; [discriminate|].
  injection H as <-. cbn [latestMisery].
  destruct (Misery c) as [misery|]; split; intros E;
    try reflexivity; try discriminate.
  exfalso. exact (toFixed2_not_NA _ E).
Qed.

(** With a [Misery] sequence and a number at the selected index, the
    text is that number times 100, in fixed notation with two decimals. *)
Lemma latestMisery_number (c : CategoryData) (moments : list string) (r : Reading)
      (misery : list (option float)) (v : float) :
  latestReading c moments = Some r ->
  Misery c = Some misery ->
  nth_error misery (latestValidIndex r) = Some (Some v) ->
  latestMisery r = toFixed2 (v * 100)%float.
Proof.
  intros H Hm Hv.
  destruct (latestReading_cases c moments) as [[H0 _]|(i & x & H0 & _)];
    rewrite H0 in H; [discriminate|].
  injection H as <-. cbn [latestMisery latestValidIndex] in *.
  rewrite Hm. unfold ToNumber_at. rewrite Hv. reflexivity.
Qed.

(** C2 (where the code departs from it). A series whose [Misery] value at
    the selected index is null: the text is ["0.00"], not the marker; and
    a [Misery] sequence shorter than [PPM3] gives ["NaN"]. *)
Theorem C2_null_misery_is_not_marked_unavailable :
  latestReading
    {| CategoryCode := "POL"; CategoryDescription := Some "Pollen";
       PPM3 := [Some 1.0; Some 2.0]%float;
       Misery := Some [Some 0.25%float; None] |}
    ["2024-09-12T10:00:00Z"; "2024-09-12T11:00:00Z"]
  = Some {| latestValidIndex := 1; latestPPM := 2.0%float;
            latestMisery := "0.00";
            latestTime := Some "2024-09-12T11:00:00Z" |}
  /\ latestReading
       {| CategoryCode := "POL"; CategoryDescription := Some "Pollen";
          PPM3 := [Some 1.0; Some 2.0]%float;
          Misery := Some [Some 0.25%float] |}
       ["2024-09-12T10:00:00Z"; "2024-09-12T11:00:00Z"]
     = Some {| latestValidIndex := 1; latestPPM := 2.0%float;
               latestMisery := "NaN";
               latestTime := Some "2024-09-12T11:00:00Z" |}.
Proof. split; reflexivity. Qed.

(* ===================================================================== *)
(** * Date/Time Formatter *)
(* ===================================================================== *)

Lemma getFormattedDateUTC_start (D : string) :
  getFormattedDateUTC D false = D ++ "T00:00:00Z".
Proof. reflexivity. Qed.

Lemma getFormattedDateUTC_end (D : string) :
  getFormattedDateUTC D true = D ++ "T23:59:59Z".
Proof. reflexivity. Qed.

Lemma Ascii_compare_refl (a : ascii) : Ascii.compare a a = Eq.
Proof. unfold Ascii.compare. apply N.compare_refl. Qed.

(** With a common prefix the order is decided by the suffixes. *)
Lemma compare_common_prefix (D s1 s2 : string) :
  String.compare (D ++ s1) (D ++ s2) = String.compare s1 s2.
Proof.
  induction D as [|a D IH]; [reflexivity|].
  cbn [append String.compare]. rewrite Ascii_compare_refl. exact IH.
Qed.

Lemma window_ordered (D : string) :
  String.leb (getFormattedDateUTC D false) (getFormattedDateUTC D true) = true.
Proof.
  unfold String.leb, getFormattedDateUTC.
  rewrite compare_common_prefix. reflexivity.
Qed.

(** For the date of any day, the window runs from the first instant of
    that day in UTC to its last whole second. *)
Lemma window_instants (day : Z) :
  getFormattedDateUTC (utc_calendar_date (day * msPerDay)) false
  = iso_instant (day * msPerDay)
  /\ getFormattedDateUTC (utc_calendar_date (day * msPerDay)) true
     = iso_instant (day * msPerDay + 86399000)
  /\ day * msPerDay <= day * msPerDay + 86399000.
Proof.
  assert (Hd : (day * msPerDay + 86399000) / msPerDay = day).
  { rewrite Z.add_comm, Z.div_add by (unfold msPerDay; lia). reflexivity. }
  assert (Hm : (day * msPerDay + 86399000) mod msPerDay = 86399000).
  { rewrite Z.add_comm, Z.mod_add by (unfold msPerDay; lia). reflexivity. }
  unfold getFormattedDateUTC, iso_instant, utc_calendar_date. cbv zeta.
  rewrite Hd, Hm, Z.div_mul, Z.mod_mul by (unfold msPerDay; lia).
  repeat split; try reflexivity. lia.
Qed.

Lemma is_YYYY_MM_DD_nonempty (D : string) :
  is_YYYY_MM_DD D = true -> String.eqb D "" = false.
Proof. destruct D; [discriminate | reflexivity]. Qed.

Lemma urlDate_of_param (b : Browser) (D : string) :
  getUrlParameter b "date" = Some D ->
  String.eqb D "" = false ->
  urlDate b = D.
Proof. unfold urlDate. intros -> ->. reflexivity. Qed.

(** C8. For a date parameter [D] in the [YYYY-MM-DD] format, the request
    window starts at [D] followed by [T00:00:00Z], ends at [D] followed by
    [T23:59:59Z], and the start does not come after the end (timestamps in
    this fixed format are ordered as their texts are). *)
Theorem C8_request_window :
  forall (b : Browser) (D : string),
    getUrlParameter b "date" = Some D ->
    is_YYYY_MM_DD D = true ->
    startingDate b = D ++ "T00:00:00Z"
    /\ endingDate b = D ++ "T23:59:59Z"
    /\ String.leb (startingDate b) (endingDate b) = true.
Proof.
  intros b D Hparam Hvalid.
  unfold startingDate, endingDate.
  rewrite (urlDate_of_param b D Hparam (is_YYYY_MM_DD_nonempty D Hvalid)).
  repeat split; try reflexivity. apply window_ordered.
Qed.

Lemma C8_request_window_witness :
  startingDate (example_browser [("date", "2024-09-12")] example_noon)
    = "2024-09-12" ++ "T00:00:00Z"
  /\ endingDate (example_browser [("date", "2024-09-12")] example_noon)
     = "2024-09-12" ++ "T23:59:59Z"
  /\ String.leb (startingDate (example_browser [("date", "2024-09-12")] example_noon))
                (endingDate (example_browser [("date", "2024-09-12")] example_noon))
     = true.
Proof.
  apply (C8_request_window
           (example_browser [("date", "2024-09-12")] example_noon) "2024-09-12");
    reflexivity.
Defined.

(** The digits printed by [padded] are characters 0-9. *)
Lemma digit_is_not_T (k : Z) :
  Ascii.eqb (ascii_of_N (48 + Z.to_N (k mod 10))) "T" = false.
Proof.
  assert (H : 0 <= k mod 10 < 10) by (apply Z.mod_pos_bound; lia).
  assert (E : k mod 10 = 0 \/ k mod 10 = 1 \/ k mod 10 = 2 \/ k mod 10 = 3
              \/ k mod 10 = 4 \/ k mod 10 = 5 \/ k mod 10 = 6 \/ k mod 10 = 7
              \/ k mod 10 = 8 \/ k mod 10 = 9) by lia.
  repeat (destruct E as [E|E]; [rewrite E; reflexivity|]).
  rewrite E; reflexivity.
Qed.

Lemma occurs_app (c : ascii) (s1 s2 : string) :
  occurs c (s1 ++ s2) = occurs c s1 || occurs c s2.
Proof.
  induction s1 as [|a s1 IH]; [reflexivity|].
  cbn [append occurs]. rewrite IH. apply orb_assoc.
Qed.

Lemma padded_has_no_T (w : nat) (n : Z) : occurs "T" (padded w n) = false.
Proof.
  revert n. induction w as [|w IH]; intros n; [reflexivity|].
  cbn [padded]. rewrite occurs_app, IH. cbn [occurs].
  rewrite digit_is_not_T. reflexivity.
Qed.

Lemma iso_date_has_no_T (ymd : Z * Z * Z) : occurs "T" (iso_date ymd) = false.
Proof.
  destruct ymd as [[y m] d]. unfold iso_date.
  repeat rewrite occurs_app.
  repeat rewrite padded_has_no_T.
  destruct ((0 <=? y) && (y <=? 9999)).
  - rewrite padded_has_no_T. reflexivity.
  - rewrite occurs_app, padded_has_no_T. destruct (y <? 0); reflexivity.
Qed.

Lemma split_first_app (sep : ascii) (s1 s2 : string) :
  occurs sep s1 = false ->
  split_first sep (s1 ++ String sep s2) = s1.
Proof.
  induction s1 as [|a s1 IH]; cbn [append split_first occurs].
  - rewrite Ascii.eqb_refl. reflexivity.
  - intros H. apply orb_false_elim in H. destruct H as [H1 H2].
    rewrite H1, (IH H2). reflexivity.
Qed.

(** [today.toISOString().split('T')[0]] is the calendar date in UTC. *)
Lemma today_is_utc_date (t : Z) :
  split_first "T" (Date_toISOString t) = utc_calendar_date t.
Proof.
  unfold Date_toISOString, utc_calendar_date.
  cbv zeta. cbn [append].
  apply split_first_app. apply iso_date_has_no_T.
Qed.

(** C9, as the code has it. The requested date is the [date] parameter
    itself, unparsed and unvalidated, whenever it is present and not
    empty; when it is absent or empty it is the current calendar date in
    UTC (the date part of the ISO-8601 text of the current instant). *)
Theorem C9_requested_date :
  forall (b : Browser),
    urlDate b =
      match getUrlParameter b "date" with
      | Some d => if String.eqb d "" then utc_calendar_date (clock_today b) else d
      | None => utc_calendar_date (clock_today b)
      end.
Proof.
  intros b. unfold urlDate.
  destruct (getUrlParameter b "date") as [d|]; [destruct (String.eqb d "")|];
    cbn [negb]; try reflexivity; apply today_is_utc_date.
Qed.

(** C9 as worded fails twice: a malformed parameter is kept as it is, and
    the default is the UTC date, which at 00:30 UTC on 13 September is a
    day ahead of the local date in a zone four hours behind UTC. *)
Lemma C9_requested_date_counterexample :
  (urlDate (example_browser [("date", "tomorrow")] example_noon) = "tomorrow"
   /\ is_YYYY_MM_DD "tomorrow" = false
   /\ urlDate (example_browser [("date", "tomorrow")] example_noon)
      <> spec_resolveRequestedDate (Some "tomorrow") example_noon 240)
  /\ (urlDate (example_browser [] 1726187400000) = "2024-09-13"
      /\ spec_resolveRequestedDate None 1726187400000 240 = "2024-09-12"
      /\ urlDate (example_browser [] 1726187400000)
         <> spec_resolveRequestedDate None 1726187400000 240).
Proof. repeat split; vm_compute; try reflexivity; discriminate. Qed.

(* ===================================================================== *)
(** * Cache Store and Data Fetcher *)
(* ===================================================================== *)

(** C4. For a stored time [t0] and a current time [now >= t0], the
    freshness test holds exactly when [now - t0] is below one hour
    (3,600,000 ms): it holds on [[t0, t0 + 1h)], fails from [t0 + 1h] on,
    and the boundary [t0 + 1h] itself is stale. *)
Theorem C4_freshness_window :
  forall (t0 now : Z),
    t0 <= now ->
    oneHourInMilliseconds = 3600000
    /\ (withinLastHour now t0 = true <-> now - t0 < 3600000)
    /\ (now < t0 + 3600000 -> withinLastHour now t0 = true)
    /\ (t0 + 3600000 <= now -> withinLastHour now t0 = false)
    /\ withinLastHour (t0 + 3600000) t0 = false.
Proof.
  intros t0 now Hle. unfold withinLastHour.
  change oneHourInMilliseconds with 3600000.
  split; [reflexivity|]. split; [apply Z.ltb_lt|].
  split; [intros H; apply Z.ltb_lt; lia|].
  split; [intros H|]; apply Z.ltb_ge; lia.
Qed.

Lemma C4_freshness_window_witness :
  oneHourInMilliseconds = 3600000
  /\ (withinLastHour (example_noon + 3599999) example_noon = true
      <-> example_noon + 3599999 - example_noon < 3600000)
  /\ (example_noon + 3599999 < example_noon + 3600000
      -> withinLastHour (example_noon + 3599999) example_noon = true)
  /\ (example_noon + 3600000 <= example_noon + 3599999
      -> withinLastHour (example_noon + 3599999) example_noon = false)
  /\ withinLastHour (example_noon + 3600000) example_noon = false.
Proof.
  apply (C4_freshness_window example_noon (example_noon + 3599999)).
  unfold example_noon. lia.
Defined.

Section Runs.

Variable apiConfig : ApiConfig.
Variable browser : Browser.

(** A load that finds the cache usable: the stored value is returned
    and only the trace grows. *)
Lemma getDataByCategory_hit (categoryCodes : list string) (w : World) :
  cacheHit browser w = true ->
  getDataByCategory apiConfig browser categoryCodes w =
    (Normal (storedPollenData w),
     {| localStorage := localStorage w;
        trace := trace w ++ dateDisplayEvents browser
                 ++ [ConsoleLog "Using cached data"] |}).
Proof.
  unfold cacheHit, storedPollenData, getDataByCategory, dateDisplayEvents.
  intros H.
  unfold bind, getItem_lastRequestTime, getItem_pollenData.
  destruct (negb (String.eqb (urlDate browser) "")); cbn -[useCache];
    rewrite H; cbn; rewrite <- ?app_assoc, ?app_nil_r; reflexivity.
Qed.

(** The object built from a response serializes. *)
Lemma responseData_object (data : jsval) (categoryCodes : list string) (v : jsval) :
  responseData data categoryCodes = Normal v ->
  exists moments categories,
    v = JObj [("moments", moments); ("categories", JArr categories)].
Proof.
  unfold responseData. intros H.
  destruct (get_prop data "Moments") as [moments|]; [|discriminate].
  cbn [cbind] in H.
  destruct (Array_map _ categoryCodes) as [categories|]; [|discriminate].
  injection H as <-. eauto.
Qed.

(** A load that does not use the cache: one request goes out; on
    success the projected response is stored with the current time and
    returned, on failure the store is left as it was. *)
Lemma getDataByCategory_miss (categoryCodes : list string) (w : World) :
  cacheHit browser w = false ->
  getDataByCategory apiConfig browser categoryCodes w =
    match cbind (network browser (requestUrl apiConfig browser) (apiKey apiConfig))
                (fun data => responseData data categoryCodes) with
    | Normal v =>
        (Normal v,
         {| localStorage :=
              {| item_lastRequestTime := Some (clock_getTime browser);
                 item_pollenData := JSON_stringify v |};
            trace := trace (fetching_world apiConfig browser w) |})
    | Throw e => (Throw e, fetching_world apiConfig browser w)
    end.
Proof.
  unfold cacheHit, storedPollenData, getDataByCategory, fetching_world,
    dateDisplayEvents.
  intros H.
  unfold bind, getItem_lastRequestTime, getItem_pollenData.
  destruct (negb (String.eqb (urlDate browser) "")); cbn -[useCache];
    rewrite H; cbn -[responseData JSON_stringify];
    rewrite <- ?app_assoc, ?app_nil_r; cbn [app];
    (destruct (network browser (requestUrl apiConfig browser) (apiKey apiConfig))
       as [data|e]; cbn [cbind]; [|reflexivity]);
    (destruct (responseData data categoryCodes) as [v|e] eqn:E; [|reflexivity]);
    destruct (responseData_object _ _ _ E) as (m & cs & ->);
    reflexivity.
Qed.

End Runs.

Lemma cacheHit_of_fresh_entry (b : Browser) (w : World) (t : Z) (text : json) :
  noCache b = false ->
  item_lastRequestTime (localStorage w) = Some t ->
  item_pollenData (localStorage w) = Some text ->
  truthy (JSON_parse text) = true ->
  withinLastHour (clock_getTime b) t = true ->
  cacheHit b w = true /\ storedPollenData w = JSON_parse text.
Proof.
  unfold cacheHit, storedPollenData, useCache.
  intros -> -> -> -> ->. split; reflexivity.
Qed.

Lemma cacheHit_noCache (b : Browser) (w : World) :
  noCache b = true -> cacheHit b w = false.
Proof. unfold cacheHit, useCache. intros ->. reflexivity. Qed.

(** C3. With [noCache] off and a fresh entry in the store, the load
    returns the stored entry as it is: the value does not depend on the
    requested category codes, so two loads with different codes against
    the same store return the same payload. *)
Theorem C3_cache_hit_ignores_categoryCodes :
  forall (cfg : ApiConfig) (b : Browser) (w : World) (t : Z) (text : json)
         (codes1 codes2 : list string),
    noCache b = false ->
    item_lastRequestTime (localStorage w) = Some t ->
    item_pollenData (localStorage w) = Some text ->
    truthy (JSON_parse text) = true ->
    withinLastHour (clock_getTime b) t = true ->
    fst (getDataByCategory cfg b codes1 w) = Normal (JSON_parse text)
    /\ fst (getDataByCategory cfg b codes2 w) = fst (getDataByCategory cfg b codes1 w).
Proof.
  intros cfg b w t text codes1 codes2 H1 H2 H3 H4 H5.
  destruct (cacheHit_of_fresh_entry b w t text H1 H2 H3 H4 H5) as [Hhit Hval].
  rewrite !(getDataByCategory_hit cfg b _ w Hhit). cbn [fst].
  rewrite Hval. split; reflexivity.
Qed.

Lemma C3_cache_hit_ignores_categoryCodes_witness :
  fst (getDataByCategory example_config
         (example_browser [("categoryCodes", "POL")] (example_noon + 60000))
         ["POL"] example_cached_world)
  = Normal (JObj [("moments", JArr [JStr "2024-09-12T00:00:00Z"]);
                  ("categories",
                   JArr [JObj [("CategoryCode", JStr "POL");
                               ("PPM3", JArr [JNum 1.0%float])]])])
  /\ fst (getDataByCategory example_config
            (example_browser [("categoryCodes", "POL")] (example_noon + 60000))
            ["GRA"; "MOL"] example_cached_world)
     = fst (getDataByCategory example_config
              (example_browser [("categoryCodes", "POL")] (example_noon + 60000))
              ["POL"] example_cached_world).
Proof.
  apply (C3_cache_hit_ignores_categoryCodes example_config
           (example_browser [("categoryCodes", "POL")] (example_noon + 60000))
           example_cached_world example_noon
           (TObj [("moments", TArr [TStr "2024-09-12T00:00:00Z"]);
                  ("categories",
                   TArr [TObj [("CategoryCode", TStr "POL");
                               ("PPM3", TArr [TNum 1.0%float])]])])
           ["POL"] ["GRA"; "MOL"]);
    reflexivity.
Defined.

(** C10. On the cache-hit path the store is left as it was: neither the
    payload nor the time of the last request is rewritten, so a hit does
    not extend the freshness window. *)
Theorem C10_cache_hit_leaves_store :
  forall (cfg : ApiConfig) (b : Browser) (w : World) (t : Z) (text : json)
         (codes : list string),
    noCache b = false ->
    item_lastRequestTime (localStorage w) = Some t ->
    item_pollenData (localStorage w) = Some text ->
    truthy (JSON_parse text) = true ->
    withinLastHour (clock_getTime b) t = true ->
    localStorage (snd (getDataByCategory cfg b codes w)) = localStorage w
    /\ item_lastRequestTime (localStorage (snd (getDataByCategory cfg b codes w)))
       = Some t
    /\ item_pollenData (localStorage (snd (getDataByCategory cfg b codes w)))
       = Some text.
Proof.
  intros cfg b w t text codes H1 H2 H3 H4 H5.
  destruct (cacheHit_of_fresh_entry b w t text H1 H2 H3 H4 H5) as [Hhit _].
  rewrite (getDataByCategory_hit cfg b codes w Hhit). cbn [snd localStorage].
  auto.
Qed.

Lemma C10_cache_hit_leaves_store_witness :
  localStorage
    (snd (getDataByCategory example_config
            (example_browser [("categoryCodes", "GRA")] (example_noon + 3599999))
            ["GRA"] example_cached_world))
  = localStorage example_cached_world
  /\ item_lastRequestTime
       (localStorage
          (snd (getDataByCategory example_config
                  (example_browser [("categoryCodes", "GRA")] (example_noon + 3599999))
                  ["GRA"] example_cached_world)))
     = Some example_noon
  /\ item_pollenData
       (localStorage
          (snd (getDataByCategory example_config
                  (example_browser [("categoryCodes", "GRA")] (example_noon + 3599999))
                  ["GRA"] example_cached_world)))
     = Some (TObj [("moments", TArr [TStr "2024-09-12T00:00:00Z"]);
                   ("categories",
                    TArr [TObj [("CategoryCode", TStr "POL");
                                ("PPM3", TArr [TNum 1.0%float])]])]).
Proof.
  apply (C10_cache_hit_leaves_store example_config
           (example_browser [("categoryCodes", "GRA")] (example_noon + 3599999))
           example_cached_world example_noon
           (TObj [("moments", TArr [TStr "2024-09-12T00:00:00Z"]);
                  ("categories",
                   TArr [TObj [("CategoryCode", TStr "POL");
                               ("PPM3", TArr [TNum 1.0%float])]])])
           ["GRA"]);
    reflexivity.
Defined.

(** C5. With the [noCache] directive on, whatever the store holds (a
    fresh entry included), the load takes the fetch branch: it logs the
    fetch, issues the request, and its outcome is the projection of the
    network's answer, which does not depend on the store. *)
Theorem C5_noCache_forces_fetch :
  forall (cfg : ApiConfig) (b : Browser) (codes : list string) (w : World),
    noCache b = true ->
    fst (getDataByCategory cfg b codes w)
    = cbind (network b (requestUrl cfg b) (apiKey cfg))
            (fun data => responseData data codes)
    /\ trace (snd (getDataByCategory cfg b codes w))
       = (trace w ++ dateDisplayEvents b
          ++ [ConsoleLog "Fetching new data from API";
              HttpGet (requestUrl cfg b) (apiKey cfg)])%list
    /\ (forall w2 : World,
           fst (getDataByCategory cfg b codes w2) = fst (getDataByCategory cfg b codes w)).
Proof.
  intros cfg b codes w H.
  assert (Hrun : forall w0,
             fst (getDataByCategory cfg b codes w0)
             = cbind (network b (requestUrl cfg b) (apiKey cfg))
                     (fun data => responseData data codes)
             /\ trace (snd (getDataByCategory cfg b codes w0))
                = trace (fetching_world cfg b w0)).
  { intros w0.
    rewrite (getDataByCategory_miss cfg b codes w0 (cacheHit_noCache b w0 H)).
    destruct (cbind _ _); split; reflexivity. }
  split; [apply Hrun|]. split; [apply Hrun|].
  intros w2. rewrite (proj1 (Hrun w2)), (proj1 (Hrun w)). reflexivity.
Qed.

Lemma C5_noCache_forces_fetch_witness :
  fst (getDataByCategory example_config
         (example_browser [("noCache", "true")] (example_noon + 60000))
         ["POL"] example_cached_world)
  = cbind (network (example_browser [("noCache", "true")] (example_noon + 60000))
             (requestUrl example_config
                (example_browser [("noCache", "true")] (example_noon + 60000)))
             (apiKey example_config))
          (fun data => responseData data ["POL"])
  /\ trace (snd (getDataByCategory example_config
                   (example_browser [("noCache", "true")] (example_noon + 60000))
                   ["POL"] example_cached_world))
     = (trace example_cached_world
        ++ dateDisplayEvents (example_browser [("noCache", "true")] (example_noon + 60000))
        ++ [ConsoleLog "Fetching new data from API";
            HttpGet (requestUrl example_config
                       (example_browser [("noCache", "true")] (example_noon + 60000)))
                    (apiKey example_config)])%list
  /\ (forall w2 : World,
         fst (getDataByCategory example_config
                (example_browser [("noCache", "true")] (example_noon + 60000))
                ["POL"] w2)
         = fst (getDataByCategory example_config
                  (example_browser [("noCache", "true")] (example_noon + 60000))
                  ["POL"] example_cached_world)).
Proof.
  apply (C5_noCache_forces_fetch example_config
           (example_browser [("noCache", "true")] (example_noon + 60000))
           ["POL"] example_cached_world).
  reflexivity.
Defined.

(* ===================================================================== *)
(** * Projection of the response *)
(* ===================================================================== *)

Lemma codeMatches_cases (code : string) (c : jsval) :
  ((c = JNull \/ c = JUndefined) /\ codeMatches code c = Throw TypeError)
  \/ codeMatches code c = Normal (has_code code c).
Proof. destruct c; cbn; auto. Qed.

Lemma Array_find_partial (code : string) (elems : list jsval) (v : jsval) :
  Array_find (codeMatches code) elems = Normal v ->
  v = match find (has_code code) elems with
      | Some category => category
      | None => JUndefined
      end.
Proof.
  induction elems as [|c elems IH]; cbn [Array_find find].
  - congruence.
  - destruct (codeMatches_cases code c) as [[_ ->] | ->]; [discriminate|].
    destruct (has_code code c); [congruence | exact IH].
Qed.

Lemma Array_find_total (code : string) (elems : list jsval) :
  Forall (fun c => c <> JNull /\ c <> JUndefined) elems ->
  Array_find (codeMatches code) elems =
    Normal match find (has_code code) elems with
           | Some category => category
           | None => JUndefined
           end.
Proof.
  induction 1 as [|c elems [Hn Hu] _ IH]; cbn [Array_find find].
  - reflexivity.
  - destruct (codeMatches_cases code c) as [[[E|E] _] | ->]; [congruence..|].
    destruct (has_code code c); [reflexivity | exact IH].
Qed.

Lemma Array_map_partial {A B : Type} (f : A -> completion B) (g : A -> B)
      (l : list A) (r : list B) :
  (forall x y, f x = Normal y -> y = g x) ->
  Array_map f l = Normal r ->
  r = map g l.
Proof.
  intros Hf. revert r. induction l as [|x l IH]; cbn [Array_map map]; intros r H.
  - congruence.
  - destruct (f x) as [y|] eqn:Ex; [|discriminate]. cbn [cbind] in H.
    destruct (Array_map f l) as [ys|]; [|discriminate]. cbn [cbind] in H.
    injection H as <-. rewrite (Hf x y Ex), (IH ys eq_refl). reflexivity.
Qed.

Lemma Array_map_total {A B : Type} (f : A -> completion B) (g : A -> B) (l : list A) :
  (forall x, f x = Normal (g x)) ->
  Array_map f l = Normal (map g l).
Proof.
  intros Hf. induction l as [|x l IH]; cbn [Array_map map]; [reflexivity|].
  rewrite Hf, IH. reflexivity.
Qed.

Lemma findCategory_partial (data : jsval) (code : string) (v : jsval) :
  findCategory data code = Normal v ->
  v = match find (has_code code) (Categories_of data) with
      | Some category => category
      | None => JUndefined
      end.
Proof.
  unfold findCategory, Categories_of.
  destruct data; cbn [get_prop cbind]; try discriminate.
  destruct (lookup_prop "Categories" props); try discriminate.
  apply Array_find_partial.
Qed.

Lemma findCategory_total (data : jsval) (code : string) :
  response_ok data ->
  findCategory data code =
    Normal match find (has_code code) (Categories_of data) with
           | Some category => category
           | None => JUndefined
           end.
Proof.
  unfold findCategory, Categories_of, response_ok.
  destruct data; cbn [get_prop cbind]; try contradiction.
  destruct (lookup_prop "Categories" props); try contradiction.
  apply Array_find_total.
Qed.

(** C6. The projected [categories] is the list of requested codes
    mapped, in order, to the first entry of [Categories] with that code,
    or to [undefined] when none matches: whenever the projection returns,
    that is its value; it does return on every response whose
    [Categories] is an array of entries; and it has the length of the
    request.  Requesting POL and XYZ from a response with a POL entry and
    no XYZ entry yields the POL series followed by [undefined]. *)
Theorem C6_projection_by_code :
  (forall (data : jsval) (codes : list string) (v : jsval),
      responseData data codes = Normal v ->
      v = JObj [("moments", Moments_of data);
                ("categories", JArr (spec_categories data codes))])
  /\ (forall (data : jsval) (codes : list string),
         response_ok data ->
         responseData data codes =
           Normal (JObj [("moments", Moments_of data);
                         ("categories", JArr (spec_categories data codes))]))
  /\ (forall (data : jsval) (codes : list string),
         length (spec_categories data codes) = length codes)
  /\ responseData example_response ["POL"; "XYZ"] =
       Normal (JObj [("moments", example_Moments);
                     ("categories", JArr [example_POL; JUndefined])]).
Proof.
  split; [|split; [|split]].
  - intros data codes v H. unfold responseData, Moments_of in *.
    destruct (get_prop data "Moments") as [moments|]; [|discriminate].
    cbn [cbind] in H.
    destruct (Array_map (findCategory data) codes) as [categories|] eqn:E;
      [|discriminate].
    injection H as <-.
    rewrite (Array_map_partial _ _ _ _ (findCategory_partial data) E).
    reflexivity.
  - intros data codes Hok. unfold responseData, Moments_of.
    rewrite (Array_map_total _ _ codes (fun code => findCategory_total data code Hok)).
    destruct data; try contradiction. reflexivity.
  - intros data codes. unfold spec_categories. apply length_map.
  - reflexivity.
Qed.

(* ===================================================================== *)
(** * Round trip through the store *)
(* ===================================================================== *)

(** Induction on values, with the hypothesis available for every element
    of an array and every property of an object. *)
Lemma jsval_nested_ind (P : jsval -> Prop) :
  P JUndefined -> P JNull ->
  (forall b, P (JBool b)) -> (forall x, P (JNum x)) -> (forall s, P (JStr s)) ->
  (forall elems, Forall P elems -> P (JArr elems)) ->
  (forall props, Forall (fun p => P (snd p)) props -> P (JObj props)) ->
  forall v, P v.
Proof.
  intros HU HN HB HX HS HA HO.
  fix IH 1. intros [ | | b | x | s | elems | props].
  - exact HU.
  - exact HN.
  - apply HB.
  - apply HX.
  - apply HS.
  - apply HA. induction elems as [|e elems IHelems]; constructor.
    + apply IH.
    + exact IHelems.
  - apply HO. induction props as [|[k e] props IHprops]; constructor.
    + apply IH.
    + exact IHprops.
Qed.

Lemma stringify_number_exact (x : float) :
  json_number x = true -> stringify_number x = TNum x.
Proof.
  unfold json_number, stringify_number. intros H.
  apply andb_true_iff in H. destruct H as [-> H].
  destruct (PrimFloat.is_zero x); [|reflexivity].
  cbn [negb orb] in H. apply FloatAxioms.Leibniz.eqb_spec in H.
  rewrite H. reflexivity.
Qed.

(** A value without [undefined], non-finite numbers and negative zero
    has a JSON text, and that text reads back as the value. *)
Lemma serialize_then_parse (v : jsval) :
  json_exact v = true ->
  option_map JSON_parse (serialize v) = Some v.
Proof.
  induction v as [ | | b | x | s | elems IH | props IH] using jsval_nested_ind;
    intros Hexact; try discriminate; try reflexivity.
  - cbn in Hexact. cbn [serialize option_map].
    rewrite (stringify_number_exact x Hexact). reflexivity.
  - cbn [serialize option_map JSON_parse]. do 2 f_equal.
    cbn [json_exact] in Hexact.
    induction IH as [|e elems He _ IHelems]; [reflexivity|].
    cbn [forallb] in Hexact. apply andb_true_iff in Hexact.
    destruct Hexact as [H1 H2].
    cbn [map]. rewrite (IHelems H2).
    specialize (He H1). destruct (serialize e); [|discriminate].
    cbn [option_map] in He. congruence.
  - cbn [serialize option_map JSON_parse]. do 2 f_equal.
    cbn [json_exact] in Hexact.
    induction IH as [|[k e] props He _ IHprops]; [reflexivity|].
    cbn [forallb snd] in Hexact. apply andb_true_iff in Hexact.
    destruct Hexact as [H1 H2].
    cbn [snd] in He. specialize (He H1).
    destruct (serialize e); [|discriminate].
    cbn [option_map] in He. rewrite (IHprops H2). congruence.
Qed.

Lemma JSON_round_trip (v : jsval) :
  json_exact v = true ->
  exists text, JSON_stringify v = Some text /\ JSON_parse text = v.
Proof.
  intros H. apply serialize_then_parse in H. unfold JSON_stringify.
  destruct (serialize v) as [text|]; [|discriminate].
  exists text. split; [reflexivity|]. cbn [option_map] in H. congruence.
Qed.

(** C7, as the code has it. A value written to the store by a load that
    fetched, and free of [undefined] entries, non-finite numbers and
    negative zero, is read back unchanged by a later load within the
    hour: the stored text parses to the very value written, and the later
    load returns it. *)
Theorem C7_store_round_trip :
  forall (cfg : ApiConfig) (b1 b2 : Browser) (codes1 codes2 : list string)
         (w w1 : World) (v : jsval),
    cacheHit b1 w = false ->
    getDataByCategory cfg b1 codes1 w = (Normal v, w1) ->
    json_exact v = true ->
    noCache b2 = false ->
    withinLastHour (clock_getTime b2) (clock_getTime b1) = true ->
    storedPollenData w1 = v
    /\ fst (getDataByCategory cfg b2 codes2 w1) = Normal v.
Proof.
  intros cfg b1 b2 codes1 codes2 w w1 v Hmiss Hrun Hexact Hno Hfresh.
  rewrite (getDataByCategory_miss cfg b1 codes1 w Hmiss) in Hrun.
  destruct (network b1 (requestUrl cfg b1) (apiKey cfg)) as [data|];
    cbn [cbind] in Hrun; [|discriminate].
  destruct (responseData data codes1) as [v'|] eqn:E; [|discriminate].
  injection Hrun as -> <-.
  destruct (responseData_object _ _ _ E) as (m & cs & Hv).
  destruct (JSON_round_trip v Hexact) as (text & Htext & Hparse).
  assert (Hstored : forall tr,
            storedPollenData
              {| localStorage :=
                   {| item_lastRequestTime := Some (clock_getTime b1);
                      item_pollenData := JSON_stringify v |};
                 trace := tr |} = v).
  { intros tr. unfold storedPollenData. cbn [localStorage item_pollenData].
    rewrite Htext. exact Hparse. }
  split; [apply Hstored|].
  rewrite getDataByCategory_hit.
  - cbn [fst]. rewrite Hstored. reflexivity.
  - unfold cacheHit. rewrite Hstored. unfold useCache.
    cbn [localStorage item_lastRequestTime].
    rewrite Hno, Hfresh, Hv. reflexivity.
Qed.

Lemma C7_store_round_trip_witness :
  storedPollenData
    (snd (getDataByCategory example_config
            (example_browser [("noCache", "true")] example_noon)
            ["POL"; "GRA"] empty_world))
  = JObj [("moments", example_Moments);
          ("categories", JArr [example_POL; example_GRA])]
  /\ fst (getDataByCategory example_config
            (example_browser [] (example_noon + 60000)) ["MOL"]
            (snd (getDataByCategory example_config
                    (example_browser [("noCache", "true")] example_noon)
                    ["POL"; "GRA"] empty_world)))
     = Normal (JObj [("moments", example_Moments);
                     ("categories", JArr [example_POL; example_GRA])]).
Proof.
  apply (C7_store_round_trip example_config
           (example_browser [("noCache", "true")] example_noon)
           (example_browser [] (example_noon + 60000))
           ["POL"; "GRA"] ["MOL"] empty_world
           (snd (getDataByCategory example_config
                   (example_browser [("noCache", "true")] example_noon)
                   ["POL"; "GRA"] empty_world))
           (JObj [("moments", example_Moments);
                  ("categories", JArr [example_POL; example_GRA])]));
    reflexivity.
Defined.

(** C7 as worded fails on values that the code itself writes: a
    requested code without an entry is [undefined] in the value written
    and [null] in the value read back; an infinite number is read back as
    [null], and negative zero as zero. *)
Lemma C7_store_round_trip_counterexample :
  (let written :=
     getDataByCategory example_config
       (example_browser [("noCache", "true")] example_noon)
       ["POL"; "XYZ"] empty_world in
   let read :=
     getDataByCategory example_config
       (example_browser [] (example_noon + 60000)) ["POL"; "XYZ"] (snd written) in
   fst written
   = Normal (JObj [("moments", example_Moments);
                   ("categories", JArr [example_POL; JUndefined])])
   /\ fst read
      = Normal (JObj [("moments", example_Moments);
                      ("categories", JArr [example_POL; JNull])])
   /\ fst read <> fst written)
  /\ (let written :=
        getDataByCategory example_config
          (example_browser_extremes [("noCache", "true")] example_noon)
          ["MOL"] empty_world in
      let read :=
        getDataByCategory example_config
          (example_browser_extremes [] (example_noon + 60000)) ["MOL"] (snd written) in
      fst written
      = Normal (JObj [("moments", JArr [JStr "2024-09-12T00:00:00Z";
                                        JStr "2024-09-12T01:00:00Z"]);
                      ("categories",
                       JArr [JObj [("CategoryCode", JStr "MOL");
                                   ("PPM3", JArr [JNum PrimFloat.infinity;
                                                  JNum PrimFloat.neg_zero])]])])
      /\ fst read
         = Normal (JObj [("moments", JArr [JStr "2024-09-12T00:00:00Z";
                                           JStr "2024-09-12T01:00:00Z"]);
                         ("categories",
                          JArr [JObj [("CategoryCode", JStr "MOL");
                                      ("PPM3", JArr [JNull; JNum PrimFloat.zero])]])])
      /\ fst read <> fst written).
Proof.
  split; cbv zeta; (split; [reflexivity|]); (split; [reflexivity|]);
    intros H; vm_compute in H; discriminate H.
Qed.

(* ===================================================================== *)
(** * Query parameters and the requested codes *)
(* ===================================================================== *)

Lemma split_not_nil (sep : ascii) (s : string) : split sep s <> [].
Proof.
  destruct s as [|c s]; cbn [split]; [discriminate|].
  destruct (Ascii.eqb c sep); [discriminate|].
  destruct (split sep s); discriminate.
Qed.

(** Joining the pieces with the separator gives the string back. *)
Lemma concat_split (sep : ascii) (s : string) :
  String.concat (String sep "") (split sep s) = s.
Proof.
  induction s as [|c s IH]; [reflexivity|].
  cbn [split]. destruct (Ascii.eqb_spec c sep) as [->|Hne].
  - cbn [String.concat]. pose proof (split_not_nil sep s) as Hnil.
    destruct (split sep s) as [|p ps]; [contradiction|].
    cbn [append]. rewrite IH. reflexivity.
  - pose proof (split_not_nil sep s) as Hnil.
    destruct (split sep s) as [|p ps]; [contradiction|].
    rewrite <- IH. destruct ps; reflexivity.
Qed.

Lemma split_pieces_have_no_sep (sep : ascii) (s : string) :
  Forall (fun piece => occurs sep piece = false) (split sep s).
Proof.
  induction s as [|c s IH]; cbn [split].
  - repeat constructor.
  - destruct (Ascii.eqb c sep) eqn:E.
    + constructor; [reflexivity | exact IH].
    + pose proof (split_not_nil sep s) as Hnil.
      destruct (split sep s) as [|p ps]; [contradiction|].
      inversion IH as [|? ? Hp Hps]; subst.
      constructor; [|exact Hps]. cbn [occurs]. rewrite E, Hp. reflexivity.
Qed.

Lemma length_split (sep : ascii) (s : string) :
  length (split sep s) = S (count_char sep s).
Proof.
  induction s as [|c s IH]; [reflexivity|].
  cbn [split count_char]. destruct (Ascii.eqb c sep).
  - cbn [length]. rewrite IH. reflexivity.
  - pose proof (split_not_nil sep s) as Hnil.
    destruct (split sep s) as [|p ps]; [contradiction|].
    cbn [length] in *. rewrite IH. reflexivity.
Qed.

Lemma split_without_sep (sep : ascii) (s : string) :
  occurs sep s = false -> split sep s = [s].
Proof.
  induction s as [|c s IH]; cbn [occurs split]; [reflexivity|].
  intros H. apply orb_false_elim in H. destruct H as [-> H].
  rewrite (IH H). reflexivity.
Qed.

Lemma split_at_first_sep (sep : ascii) (s1 s2 : string) :
  occurs sep s1 = false ->
  split sep (s1 ++ String sep s2) = s1 :: split sep s2.
Proof.
  induction s1 as [|c s1 IH]; cbn [occurs append split].
  - rewrite Ascii.eqb_refl. reflexivity.
  - intros H. apply orb_false_elim in H. destruct H as [-> H].
    rewrite (IH H). reflexivity.
Qed.

Lemma occurs_iff_count (sep : ascii) (s : string) :
  occurs sep s = false <-> count_char sep s = O.
Proof.
  induction s as [|c s IH]; cbn [occurs count_char]; [tauto|].
  destruct (Ascii.eqb c sep); cbn [orb Nat.add].
  - split; discriminate.
  - exact IH.
Qed.

(** X1. [init], lines 222-223. With a non-empty [categoryCodes] parameter,
    the requested codes are its comma-separated pieces: joined by commas
    they give the parameter back, there is one more code than there are
    commas, and no code holds a comma. *)
Theorem init_categoryCodes_are_the_pieces :
  forall (b : Browser) (param : string),
    getUrlParameter b "categoryCodes" = Some param ->
    param <> "" ->
    String.concat "," (init_categoryCodes b) = param
    /\ length (init_categoryCodes b) = S (count_char "," param)
    /\ Forall (fun code => occurs "," code = false) (init_categoryCodes b).
Proof.
  intros b param Hp Hne. unfold init_categoryCodes. rewrite Hp.
  apply String.eqb_neq in Hne. rewrite Hne. cbn [negb].
  split; [apply concat_split|].
  split; [apply length_split | apply split_pieces_have_no_sep].
Qed.

Lemma init_categoryCodes_are_the_pieces_witness :
  String.concat ","
    (init_categoryCodes (example_browser [("categoryCodes", "POL,MOL,,GRA")] example_noon))
  = "POL,MOL,,GRA"
  /\ length (init_categoryCodes
               (example_browser [("categoryCodes", "POL,MOL,,GRA")] example_noon))
     = S (count_char "," "POL,MOL,,GRA")
  /\ Forall (fun code => occurs "," code = false)
            (init_categoryCodes
               (example_browser [("categoryCodes", "POL,MOL,,GRA")] example_noon)).
Proof.
  apply (init_categoryCodes_are_the_pieces
           (example_browser [("categoryCodes", "POL,MOL,,GRA")] example_noon)
           "POL,MOL,,GRA").
  - reflexivity.
  - discriminate.
Defined.

(** X2. [init], lines 222-223. The list of requested codes is never empty:
    without the parameter, or with an empty one, it is the single code
    POL; and a parameter without a comma is requested as one code. *)
Theorem init_always_requests_a_code :
  forall (b : Browser),
    init_categoryCodes b <> []
    /\ (getUrlParameter b "categoryCodes" = None
        \/ getUrlParameter b "categoryCodes" = Some "" ->
        init_categoryCodes b = ["POL"])
    /\ (forall param,
           getUrlParameter b "categoryCodes" = Some param ->
           param <> "" -> occurs "," param = false ->
           init_categoryCodes b = [param]).
Proof.
  intros b. unfold init_categoryCodes. split; [|split].
  - destruct (getUrlParameter b "categoryCodes") as [p|]; [|discriminate].
    destruct (negb (String.eqb p "")); [apply split_not_nil | discriminate].
  - intros [-> | ->]; reflexivity.
  - intros param -> Hne Hno. apply String.eqb_neq in Hne. rewrite Hne.
    cbn [negb]. apply split_without_sep. exact Hno.
Qed.

Lemma URLSearchParams_get_first (pre post : list (string * string))
      (name value : string) :
  URLSearchParams_get pre name = None ->
  URLSearchParams_get (pre ++ (name, value) :: post) name = Some value.
Proof.
  induction pre as [|[k v] pre IH]; cbn [app URLSearchParams_get].
  - rewrite String.eqb_refl. reflexivity.
  - destruct (String.eqb k name); [discriminate | exact IH].
Qed.

(** X3. [getUrlParameter]. A parameter that is given several times counts
    with its first value, whatever follows; a name that occurs nowhere in
    the query is answered [null]. *)
Theorem getUrlParameter_first_value_counts :
  forall (b : Browser) (pre post : list (string * string)) (name value : string),
    location_search b = (pre ++ (name, value) :: post)%list ->
    Forall (fun p => fst p <> name) pre ->
    getUrlParameter b name = Some value.
Proof.
  intros b pre post name value Hs Hpre. unfold getUrlParameter. rewrite Hs.
  apply URLSearchParams_get_first. clear Hs.
  induction Hpre as [|[k v] pre Hk _ IH]; [reflexivity|].
  cbn [URLSearchParams_get fst] in *. apply String.eqb_neq in Hk.
  rewrite Hk. exact IH.
Qed.

Lemma getUrlParameter_first_value_counts_witness :
  getUrlParameter
    (example_browser [("date", "2024-09-12"); ("noCache", "false"); ("noCache", "true")]
                     example_noon)
    "noCache"
  = Some "false".
Proof.
  apply (getUrlParameter_first_value_counts
           (example_browser
              [("date", "2024-09-12"); ("noCache", "false"); ("noCache", "true")]
              example_noon)
           [("date", "2024-09-12")] [("noCache", "true")] "noCache" "false").
  - reflexivity.
  - repeat constructor. discriminate.
Defined.

(* ===================================================================== *)
(** * The time label *)
(* ===================================================================== *)

Lemma append_assoc (s1 s2 s3 : string) : (s1 ++ s2) ++ s3 = s1 ++ (s2 ++ s3).
Proof. induction s1 as [|c s1 IH]; cbn [append]; [|rewrite IH]; reflexivity. Qed.

Lemma append_nil_r (s : string) : s ++ "" = s.
Proof. induction s as [|c s IH]; cbn [append]; [|rewrite IH]; reflexivity. Qed.

Lemma split_after_prefix (sep : ascii) (s1 s2 : string) :
  occurs sep s1 = false ->
  split sep (s1 ++ s2) =
    match split sep s2 with
    | piece :: pieces => (s1 ++ piece) :: pieces
    | [] => [s1]
    end.
Proof.
  induction s1 as [|c s1 IH]; cbn [occurs append].
  - intros _. destruct (split sep s2) eqn:E; [|reflexivity].
    exfalso. exact (split_not_nil sep s2 E).
  - intros H. apply orb_false_elim in H. destruct H as [Hc H].
    cbn [split]. rewrite Hc, (IH H).
    destruct (split sep s2); reflexivity.
Qed.

Lemma second_piece_missing (sep : ascii) (s : string) :
  nth_error (split sep s) 1 = None <-> occurs sep s = false.
Proof.
  rewrite nth_error_None, length_split, occurs_iff_count. lia.
Qed.

Lemma hour12_range (hour : intnum) :
  hour12 hour <> 0 /\ -11 <= hour12 hour <= 12.
Proof.
  destruct hour as [ | negative | v]; cbn [hour12]; try lia.
  destruct (Z.rem v 12 =? 0) eqn:E; [lia|].
  apply Z.eqb_neq in E.
  pose proof (Z.rem_bound_abs v 12 ltac:(lia)). lia.
Qed.

(** X4. Lines 172-181. The label cannot be built exactly when the moment at
    the selected index is missing or holds no [T]: the callback then
    throws a TypeError, for every [interval], also for [day], whose label
    would have been empty. *)
Theorem timeLabel_throws_iff_no_time_part :
  forall (interval : option string) (latestTime : option string),
    (timeLabelText interval latestTime = Throw TypeError
     <-> latestTime = None
         \/ exists moment, latestTime = Some moment /\ occurs "T" moment = false)
    /\ (forall e, timeLabelText interval latestTime = Throw e -> e = TypeError).
Proof.
  intros interval [moment|]; cbn [timeLabelText].
  - destruct (nth_error (split "T" moment) 1) as [afterT|] eqn:E.
    + split; [split|]; try discriminate.
      intros [H | (m & Hm & Hno)]; [discriminate|].
      injection Hm as <-. apply second_piece_missing in Hno. congruence.
    + split; [split|]; try congruence.
      intros _. right. exists moment. split; [reflexivity|].
      apply second_piece_missing. exact E.
  - split; [split|]; try congruence. auto.
Qed.

(** X5. Lines 172-181. Whatever the moment, a label that is built is empty
    for the interval [day] and otherwise reads [As of h:m AM] or
    [As of h:m PM] with an hour that is never 0 and never above 12 (a
    negative hour text keeps its sign; an hour text without digits
    shows as 12). *)
Theorem timeLabel_hour_is_on_the_dial :
  forall (interval : option string) (latestTime : option string) (text : string),
    timeLabelText interval latestTime = Normal text ->
    (interval = Some "day" /\ text = "")
    \/ (interval <> Some "day"
        /\ exists (h : Z) (minute ampm : string),
             text = "As of " ++ show_int h ++ ":" ++ minute ++ " " ++ ampm
             /\ h <> 0 /\ -11 <= h <= 12
             /\ (ampm = "AM" \/ ampm = "PM")).
Proof.
  intros interval [moment|] text; cbn [timeLabelText]; [|discriminate].
  destruct (nth_error (split "T" moment) 1) as [afterT|]; [|discriminate].
  cbv zeta. intros H. injection H as <-.
  destruct interval as [i|].
  - destruct (String.eqb_spec i "day") as [->|Hne].
    + left. split; reflexivity.
    + right. split; [congruence|].
      eexists _, _, _. split; [reflexivity|].
      split; [apply hour12_range|]. split; [apply hour12_range|].
      destruct (atLeast12 _); auto.
  - right. split; [discriminate|].
    eexists _, _, _. split; [reflexivity|].
    split; [apply hour12_range|]. split; [apply hour12_range|].
    destruct (atLeast12 _); auto.
Qed.

Lemma timeLabel_hour_is_on_the_dial_witness :
  (Some "hour" = Some "day" /\ "As of -5:3 AM" = "")
  \/ (Some "hour" <> Some "day"
      /\ exists (h : Z) (minute ampm : string),
           "As of -5:3 AM" = "As of " ++ show_int h ++ ":" ++ minute ++ " " ++ ampm
           /\ h <> 0 /\ -11 <= h <= 12
           /\ (ampm = "AM" \/ ampm = "PM")).
Proof.
  apply (timeLabel_hour_is_on_the_dial (Some "hour") (Some "xT-5:3") "As of -5:3 AM").
  reflexivity.
Defined.

Lemma digit_is_not_colon (k : Z) :
  Ascii.eqb (ascii_of_N (48 + Z.to_N (k mod 10))) ":" = false.
Proof.
  assert (H : 0 <= k mod 10 < 10) by (apply Z.mod_pos_bound; lia).
  assert (E : k mod 10 = 0 \/ k mod 10 = 1 \/ k mod 10 = 2 \/ k mod 10 = 3
              \/ k mod 10 = 4 \/ k mod 10 = 5 \/ k mod 10 = 6 \/ k mod 10 = 7
              \/ k mod 10 = 8 \/ k mod 10 = 9) by lia.
  repeat (destruct E as [E|E]; [rewrite E; reflexivity|]).
  rewrite E; reflexivity.
Qed.

Lemma padded_has_no_colon (w : nat) (n : Z) : occurs ":" (padded w n) = false.
Proof.
  revert n. induction w as [|w IH]; intros n; [reflexivity|].
  cbn [padded]. rewrite occurs_app, IH. cbn [occurs].
  rewrite digit_is_not_colon. reflexivity.
Qed.

(** [parseInt] reads a two-digit text as the number it writes. *)
Lemma parseInt10_two_digits (H : Z) :
  0 <= H < 100 -> parseInt10 (padded 2 H) = NInt H.
Proof.
  intros Hr.
  assert (Hall :
            forallb (fun n => match parseInt10 (padded 2 n) with
                              | NInt v => v =? n
                              | _ => false
                              end)
                    (map Z.of_nat (seq 0 100)) = true)
    by (vm_compute; reflexivity).
  rewrite forallb_forall in Hall. specialize (Hall H).
  destruct (parseInt10 (padded 2 H)) as [ | | v].
  - discriminate Hall. apply in_map_iff. exists (Z.to_nat H).
    split; [lia | apply in_seq; lia].
  - discriminate Hall. apply in_map_iff. exists (Z.to_nat H).
    split; [lia | apply in_seq; lia].
  - f_equal. apply Z.eqb_eq. apply Hall. apply in_map_iff. exists (Z.to_nat H).
    split; [lia | apply in_seq; lia].
Qed.

(** X6. Lines 172-181. For a moment [<date>T<HH>:<MM>...] with the hour [H]
    (0 to 23) written with two digits, and an interval other than [day],
    the label is [As of h:MM AM/PM]: [h] is [H] on the 12-hour dial (0 and
    12 both show as 12), it is AM before 12 and PM from 12 on, and the
    minute text is shown as it stands.  The hour is the one of the moment
    itself (UTC for the API's moments), not converted to a local time. *)
Theorem timeLabel_twelve_hour_clock :
  forall (interval : option string) (date minute tail : string) (H : Z),
    interval <> Some "day" ->
    0 <= H < 24 ->
    occurs "T" date = false ->
    occurs "T" minute = false ->
    occurs ":" minute = false ->
    (tail = "" \/ exists rest, tail = ":" ++ rest) ->
    timeLabelText interval
      (Some (date ++ "T" ++ padded 2 H ++ ":" ++ minute ++ tail))
    = Normal ("As of " ++ decimal (if H mod 12 =? 0 then 12 else H mod 12)
              ++ ":" ++ minute ++ " " ++ (if H <? 12 then "AM" else "PM")).
Proof.
  intros interval date minute tail H Hint HH Hdate HminT Hmin Htail.
  assert (Hprefix : occurs "T" (padded 2 H ++ ":" ++ minute) = false).
  { rewrite !occurs_app, padded_has_no_T, HminT. reflexivity. }
  assert (Hparts :
            exists more afterT,
              nth_error (split "T" (date ++ "T" ++ padded 2 H ++ ":" ++ minute ++ tail)) 1
              = Some afterT
              /\ split ":" afterT = padded 2 H :: minute :: more).
  { change (date ++ "T" ++ padded 2 H ++ ":" ++ minute ++ tail)
      with (date ++ String "T" (padded 2 H ++ ":" ++ minute ++ tail)).
    rewrite (split_at_first_sep "T" date _ Hdate). cbn [nth_error].
    replace (padded 2 H ++ ":" ++ minute ++ tail)
      with ((padded 2 H ++ ":" ++ minute) ++ tail)
      by (rewrite !append_assoc; reflexivity).
    rewrite (split_after_prefix "T" _ tail Hprefix).
    destruct Htail as [-> | (rest & ->)].
    - exists [], (padded 2 H ++ ":" ++ minute). cbn [split].
      rewrite append_nil_r. split; [reflexivity|].
      change (padded 2 H ++ ":" ++ minute) with (padded 2 H ++ String ":" minute).
      rewrite (split_at_first_sep ":" _ _ (padded_has_no_colon 2 H)).
      rewrite (split_without_sep ":" minute Hmin). reflexivity.
    - change (":" ++ rest) with (":" ++ rest)%string.
      rewrite (split_after_prefix "T" ":" rest eq_refl).
      pose proof (split_not_nil "T" rest) as Hnil.
      destruct (split "T" rest) as [|q qs]; [contradiction|].
      exists (split ":" q), ((padded 2 H ++ ":" ++ minute) ++ ":" ++ q).
      cbn [nth_error hd]. split; [reflexivity|].
      rewrite !append_assoc.
      change (padded 2 H ++ ":" ++ minute ++ ":" ++ q)
        with (padded 2 H ++ String ":" (minute ++ String ":" q)).
      rewrite (split_at_first_sep ":" _ _ (padded_has_no_colon 2 H)).
      rewrite (split_at_first_sep ":" minute q Hmin). reflexivity. }
  destruct Hparts as (more & afterT & Hnth & Hsplit).
  unfold timeLabelText. rewrite Hnth, Hsplit. cbn [firstn String.concat].
  change (padded 2 H ++ ":" ++ minute) with (padded 2 H ++ String ":" minute).
  rewrite (split_at_first_sep ":" _ _ (padded_has_no_colon 2 H)).
  rewrite (split_without_sep ":" minute Hmin). cbn [nth_error].
  rewrite (parseInt10_two_digits H ltac:(lia)).
  cbn [atLeast12 hour12].
  rewrite (Z.rem_mod_nonneg H 12) by lia.
  assert (Hh : 0 <= (if H mod 12 =? 0 then 12 else H mod 12)).
  { destruct (H mod 12 =? 0); [lia|]. apply Z.mod_pos_bound. lia. }
  unfold show_int. replace (_ <? 0) with false by (symmetry; apply Z.ltb_ge; exact Hh).
  replace (12 <=? H) with (negb (H <? 12)) by (destruct (Z.ltb_spec H 12); destruct (Z.leb_spec 12 H);
        cbn [negb]; try reflexivity; lia).
  replace (match interval with Some i => String.eqb i "day" | None => false end)
    with false.
  - destruct (H <? 12); reflexivity.
  - destruct interval as [i|]; [|reflexivity].
    symmetry. apply String.eqb_neq. congruence.
Qed.

Lemma timeLabel_twelve_hour_clock_witness :
  timeLabelText None (Some ("2024-09-12" ++ "T" ++ padded 2 13 ++ ":" ++ "05" ++ ":00Z"))
  = Normal ("As of " ++ decimal (if 13 mod 12 =? 0 then 12 else 13 mod 12)
            ++ ":" ++ "05" ++ " " ++ (if 13 <? 12 then "AM" else "PM")).
Proof.
  apply (timeLabel_twelve_hour_clock None "2024-09-12" "05" ":00Z" 13).
  - discriminate.
  - lia.
  - reflexivity.
  - reflexivity.
  - reflexivity.
  - right. exists "00Z". reflexivity.
Defined.

(* ===================================================================== *)
(** * Drawing the gauges *)
(* ===================================================================== *)

Lemma latestReading_None_iff (c : CategoryData) (moments : list string) :
  latestReading c moments = None <-> hasReading (Some c) = false.
Proof.
  cbn [hasReading]. split.
  - intros H.
    destruct (latestReading_cases c moments) as [[_ Hall]|(i & x & E & _)];
      [|congruence].
    induction Hall as [|v l -> _ IH]; [reflexivity | exact IH].
  - intros H.
    destruct (latestReading_cases c moments) as [[E _]|(i & x & _ & _ & Hi & _)];
      [exact E|].
    apply nth_error_In in Hi.
    assert (Hex : existsb (fun v => match v with Some _ => true | None => false end)
                          (PPM3 c) = true)
      by (apply existsb_exists; exists (Some x); auto).
    congruence.
Qed.

Lemma latestReading_fields (c : CategoryData) (moments : list string) (r : Reading) :
  latestReading c moments = Some r ->
  latestTime r = nth_error moments (latestValidIndex r)
  /\ (latestValidIndex r < length (PPM3 c))%nat.
Proof.
  intros H.
  destruct (latestReading_cases c moments) as [[E _]|(i & x & E & Hi & _)];
    rewrite E in H; [discriminate|].
  injection H as <-. cbn [latestTime latestValidIndex]. auto.
Qed.

(** What was in the container stays in front of what the loop appends. *)
Lemma forEach_draw_container (interval : option string) (moments : list string)
      (categoriesData : list (option CategoryData)) :
  forall (index : nat) (container : list GaugeView),
    forEach_draw interval moments index categoriesData container =
      (fst (forEach_draw interval moments index categoriesData []),
       (container ++ snd (forEach_draw interval moments index categoriesData []))%list).
Proof.
  induction categoriesData as [|e rest IH]; intros index container;
    cbn [forEach_draw].
  - cbn [fst snd]. rewrite app_nil_r. reflexivity.
  - destruct (drawCategory interval moments index e) as [[g|]|x].
    + rewrite (IH (S index) (container ++ [g])%list), (IH (S index) ([] ++ [g])%list).
      cbn [fst snd app]. rewrite <- app_assoc. reflexivity.
    + apply IH.
    + cbn [fst snd]. rewrite app_nil_r. reflexivity.
Qed.

Lemma forEach_draw_app (interval : option string) (moments : list string)
      (pre post : list (option CategoryData)) :
  forall (index : nat) (container : list GaugeView),
    forEach_draw interval moments index (pre ++ post) container =
      match forEach_draw interval moments index pre container with
      | (Normal _, container') =>
          forEach_draw interval moments (index + length pre) post container'
      | (Throw e, container') => (Throw e, container')
      end.
Proof.
  induction pre as [|e pre IH]; intros index container; cbn [app forEach_draw length].
  - rewrite Nat.add_0_r. reflexivity.
  - destruct (drawCategory interval moments index e) as [[g|]|x]; [| |reflexivity];
      rewrite IH; replace (S index + length pre)%nat with (index + S (length pre))%nat
        by lia; reflexivity.
Qed.

Lemma drawCategory_draws_iff (interval : option string) (moments : list string)
      (index : nat) (e : option CategoryData) (g : GaugeView) :
  drawCategory interval moments index e = Normal (Some g) -> hasReading e = true.
Proof.
  destruct e as [c|]; cbn [drawCategory]; [|discriminate].
  destruct (latestReading c moments) as [r|] eqn:E; [|discriminate].
  intros _. destruct (hasReading (Some c)) eqn:Hr; [reflexivity|].
  apply (proj2 (latestReading_None_iff c moments)) in Hr. congruence.
Qed.

Lemma drawCategory_skips_iff (interval : option string) (moments : list string)
      (index : nat) (e : option CategoryData) :
  drawCategory interval moments index e = Normal None -> hasReading e = false.
Proof.
  destruct e as [c|]; cbn [drawCategory]; [|reflexivity].
  destruct (latestReading c moments) as [r|] eqn:E.
  - destruct (timeLabelText interval (latestTime r)); discriminate.
  - intros _. apply (latestReading_None_iff c moments). exact E.
Qed.

(** X7. [displayGaugesForCategories]. There is never more than one gauge per
    entry that is present and holds a PPM value, hence never more gauges
    than categories; and when the rendering does not throw there is
    exactly one for each such entry: absent entries and series without a
    value get no placeholder. *)
Theorem displayGauges_one_gauge_per_reading :
  forall (b : Browser) (categoriesData : list (option CategoryData))
         (moments : list string),
    (length (snd (displayGaugesForCategories b categoriesData moments))
     <= length (filter hasReading categoriesData))%nat
    /\ (length (filter hasReading categoriesData) <= length categoriesData)%nat
    /\ (fst (displayGaugesForCategories b categoriesData moments) = Normal tt ->
        length (snd (displayGaugesForCategories b categoriesData moments))
        = length (filter hasReading categoriesData)).
Proof.
  intros b categoriesData moments. unfold displayGaugesForCategories.
  generalize (getUrlParameter b "interval") as interval. intros interval.
  generalize 0%nat as index.
  induction categoriesData as [|e rest IH]; intros index.
  - cbn. auto.
  - cbn [forEach_draw filter].
    destruct (drawCategory interval moments index e) as [[g|]|x] eqn:E.
    + rewrite (drawCategory_draws_iff _ _ _ _ _ E).
      rewrite forEach_draw_container. cbn [fst snd app length].
      destruct (IH (S index)) as (H1 & H2 & H3).
      split; [lia|]. split; [lia|]. intros H. rewrite (H3 H). reflexivity.
    + rewrite (drawCategory_skips_iff _ _ _ _ E).
      destruct (IH (S index)) as (H1 & H2 & H3). cbn [length].
      split; [exact H1|]. split; [lia | exact H3].
    + cbn [fst snd length]. split; [lia|]. split; [|discriminate].
      destruct (hasReading e); cbn [length];
        pose proof (filter_length_le hasReading rest); lia.
Qed.

(** The gauges of the entries from position [index] on. *)
Lemma forEach_draw_positions (interval : option string) (moments : list string)
      (categoriesData : list (option CategoryData)) :
  forall (index : nat),
  exists positions : list nat,
    StronglySorted lt positions
    /\ Forall (fun k => index <= k)%nat positions
    /\ Forall2
         (fun k g =>
            exists c r,
              nth_error categoriesData (k - index) = Some (Some c)
              /\ latestReading c moments = Some r
              /\ canvasId g = "gaugeCanvas" ++ decimal (Z.of_nat k + 1)
              /\ gaugeValue g = latestMisery r
              /\ categoryLabel g =
                   match CategoryDescription c with
                   | Some "" | None => "Unknown Category"
                   | Some d => d
                   end)
         positions
         (snd (forEach_draw interval moments index categoriesData [])).
Proof.
  induction categoriesData as [|e rest IH]; intros index.
  - exists []. cbn. repeat constructor.
  - destruct (IH (S index)) as (ps & Hsorted & Hge & Hall).
    assert (Hshift :
              Forall2
                (fun k g =>
                   exists c r,
                     nth_error (e :: rest) (k - index) = Some (Some c)
                     /\ latestReading c moments = Some r
                     /\ canvasId g = "gaugeCanvas" ++ decimal (Z.of_nat k + 1)
                     /\ gaugeValue g = latestMisery r
                     /\ categoryLabel g =
                          match CategoryDescription c with
                          | Some "" | None => "Unknown Category"
                          | Some d => d
                          end)
                ps (snd (forEach_draw interval moments (S index) rest []))).
    { clear - Hge Hall. induction Hall as [|k g ks gs Hk _ IHall]; constructor.
      - inversion Hge as [|? ? Hle _]; subst.
        destruct Hk as (c & r & Hn & Hrest). exists c, r. split; [|exact Hrest].
        replace (k - index)%nat with (S (k - S index)) by lia. exact Hn.
      - apply IHall. inversion Hge; assumption. }
    cbn [forEach_draw].
    destruct (drawCategory interval moments index e) as [[g|]|x] eqn:E.
    + rewrite forEach_draw_container. cbn [snd app].
      exists (index :: ps). split; [|split].
      * constructor; [exact Hsorted|].
        eapply Forall_impl; [|exact Hge]. cbn. intros k Hk. lia.
      * constructor; [lia|]. eapply Forall_impl; [|exact Hge]. cbn. intros; lia.
      * constructor; [|exact Hshift].
        destruct e as [c|]; cbn [drawCategory] in E; [|discriminate].
        destruct (latestReading c moments) as [r|] eqn:Er; [|discriminate].
        destruct (timeLabelText interval (latestTime r)) as [text|]; [|discriminate].
        cbn [cbind] in E. injection E as <-.
        exists c, r. rewrite Nat.sub_diag. cbn [nth_error canvasId gaugeValue categoryLabel].
        split; [reflexivity|]. split; [exact Er|].
        split; [reflexivity|]. split; [reflexivity|].
        destruct (CategoryDescription c) as [[|a d]|]; reflexivity.
    + exists ps. split; [exact Hsorted|]. split; [|exact Hshift].
      eapply Forall_impl; [|exact Hge]. cbn. intros; lia.
    + exists []. cbn. repeat constructor.
Qed.

(** X8. [displayGaugesForCategories]. The gauges stand in the order of the
    requested categories, each one drawn from the entry at its position:
    position [k] (from 0) gives the canvas [gaugeCanvas<k+1>], the
    category's description as label ([Unknown Category] when missing or
    empty) and the latest Misery text as gauge value.  Canvas numbers
    follow the request, not the count of gauges: skipped categories leave
    gaps. *)
Theorem displayGauges_follow_the_request :
  forall (b : Browser) (categoriesData : list (option CategoryData))
         (moments : list string),
  exists positions : list nat,
    StronglySorted lt positions
    /\ Forall2
         (fun k g =>
            exists c r,
              nth_error categoriesData k = Some (Some c)
              /\ latestReading c moments = Some r
              /\ canvasId g = "gaugeCanvas" ++ decimal (Z.of_nat k + 1)
              /\ gaugeValue g = latestMisery r
              /\ categoryLabel g =
                   match CategoryDescription c with
                   | Some "" | None => "Unknown Category"
                   | Some d => d
                   end)
         positions
         (snd (displayGaugesForCategories b categoriesData moments)).
Proof.
  intros b categoriesData moments. unfold displayGaugesForCategories.
  destruct (forEach_draw_positions (getUrlParameter b "interval") moments
              categoriesData 0) as (ps & Hsorted & _ & Hall).
  exists ps. split; [exact Hsorted|].
  eapply Forall2_impl; [|exact Hall]. cbn.
  intros k g (c & r & Hn & Hrest). exists c, r.
  rewrite Nat.sub_0_r in Hn. auto.
Qed.

(** X9. [displayGaugesForCategories]. When the latest value of a category
    lies at an index for which [moments] has no element, the callback
    throws a TypeError there: the gauges of the categories before it stay
    drawn, and none of the categories after it is drawn. *)
Theorem displayGauges_stop_at_missing_moment :
  forall (b : Browser) (pre post : list (option CategoryData)) (c : CategoryData)
         (moments : list string) (r : Reading),
    fst (displayGaugesForCategories b pre moments) = Normal tt ->
    latestReading c moments = Some r ->
    (length moments <= latestValidIndex r)%nat ->
    displayGaugesForCategories b (pre ++ Some c :: post) moments
    = (Throw TypeError, snd (displayGaugesForCategories b pre moments)).
Proof.
  intros b pre post c moments r Hpre Hr Hlen.
  unfold displayGaugesForCategories in *.
  rewrite forEach_draw_app.
  destruct (forEach_draw (getUrlParameter b "interval") moments 0 pre [])
    as [[[]|e] container]; cbn [fst snd] in *; [|discriminate].
  cbn [forEach_draw drawCategory]. rewrite Hr.
  destruct (latestReading_fields c moments r Hr) as [-> _].
  rewrite (proj2 (nth_error_None moments (latestValidIndex r)) Hlen).
  reflexivity.
Qed.

Lemma displayGauges_stop_at_missing_moment_witness :
  displayGaugesForCategories (example_browser [] example_noon)
    ([Some {| CategoryCode := "POL"; CategoryDescription := Some "Pollen";
              PPM3 := [Some 1.0%float]; Misery := None |}]
     ++ Some {| CategoryCode := "GRA"; CategoryDescription := Some "Grass";
                PPM3 := [None; Some 2.0%float]; Misery := None |}
     :: [Some {| CategoryCode := "MOL"; CategoryDescription := Some "Mold";
                 PPM3 := [Some 3.0%float]; Misery := None |}])
    ["2024-09-12T00:00:00Z"]
  = (Throw TypeError,
     snd (displayGaugesForCategories (example_browser [] example_noon)
            [Some {| CategoryCode := "POL"; CategoryDescription := Some "Pollen";
                     PPM3 := [Some 1.0%float]; Misery := None |}]
            ["2024-09-12T00:00:00Z"])).
Proof.
  apply (displayGauges_stop_at_missing_moment (example_browser [] example_noon)
           [Some {| CategoryCode := "POL"; CategoryDescription := Some "Pollen";
                    PPM3 := [Some 1.0%float]; Misery := None |}]
           [Some {| CategoryCode := "MOL"; CategoryDescription := Some "Mold";
                    PPM3 := [Some 3.0%float]; Misery := None |}]
           {| CategoryCode := "GRA"; CategoryDescription := Some "Grass";
              PPM3 := [None; Some 2.0%float]; Misery := None |}
           ["2024-09-12T00:00:00Z"]
           {| latestValidIndex := 1; latestPPM := 2.0%float;
              latestMisery := "N/A"; latestTime := None |}).
  - reflexivity.
  - reflexivity.
  - cbn. lia.
Defined.

Lemma scanBackward_prefix (series extra : list (option float)) (n : nat) :
  (n <= length series)%nat ->
  scanBackward (series ++ extra) n = scanBackward series n.
Proof.
  induction n as [|n IH]; intros Hn; [reflexivity|].
  cbn [scanBackward]. rewrite nth_error_app1 by lia. rewrite IH by lia.
  reflexivity.
Qed.

Lemma scanBackward_trailing_nulls (series : list (option float)) (k j : nat) :
  (j <= k)%nat ->
  scanBackward (series ++ repeat None k) (length series + j)
  = scanBackward series (length series).
Proof.
  induction j as [|j IH]; intros Hj.
  - rewrite Nat.add_0_r. apply scanBackward_prefix. lia.
  - replace (length series + S j)%nat with (S (length series + j)) by lia.
    cbn [scanBackward]. rewrite nth_error_app2 by lia.
    replace (length series + j - length series)%nat with j by lia.
    rewrite nth_error_repeat by lia. apply IH. lia.
Qed.

(** X10. Lines 142-156. Null values at the end of [PPM3] (the hours of the
    day that have no reading yet) do not change the selection: with any
    number of nulls appended, the index, the PPM value, the Misery text
    and the moment selected are the same. *)
Theorem latestReading_ignores_trailing_nulls :
  forall (c : CategoryData) (k : nat) (moments : list string),
    latestReading
      {| CategoryCode := CategoryCode c;
         CategoryDescription := CategoryDescription c;
         PPM3 := PPM3 c ++ repeat None k;
         Misery := Misery c |} moments
    = latestReading c moments.
Proof.
  intros c k moments. unfold latestReading. cbn [PPM3 Misery].
  rewrite length_app, repeat_length, (scanBackward_trailing_nulls (PPM3 c) k k (le_n k)).
  destruct (scanBackward_spec (PPM3 c) (length (PPM3 c)) (le_n _))
    as [[H1 _]|(i & x & H1 & H2 & _)]; rewrite H1.
  - reflexivity.
  - replace (Z.of_nat i =? -1) with false by (symmetry; apply Z.eqb_neq; lia).
    rewrite Nat2Z.id, nth_error_app1 by exact H2. reflexivity.
Qed.


(* ===================================================================== *)
(** * More on the cache and the fetch *)
(* ===================================================================== *)

Lemma requests_app (tr1 tr2 : list event) :
  requests (tr1 ++ tr2) = (requests tr1 ++ requests tr2)%list.
Proof.
  induction tr1 as [|[m|d|url key] tr1 IH]; cbn [app requests]; rewrite ?IH; reflexivity.
Qed.

Lemma requests_dateDisplayEvents (b : Browser) : requests (dateDisplayEvents b) = [].
Proof. unfold dateDisplayEvents. destruct (negb _); reflexivity. Qed.

(** X11. [getDataByCategory]. A load sends one HTTP request when the cache is
    not used and none when it is; and the cache is used exactly when
    [noCache] is not ['true'], both items are stored, the stored payload
    is truthy and less than an hour lies between the stored time and now. *)
Theorem getDataByCategory_requests_iff_cache_unusable :
  forall (cfg : ApiConfig) (b : Browser) (codes : list string) (w : World),
    requests (trace (snd (getDataByCategory cfg b codes w)))
    = (requests (trace w) ++ (if cacheHit b w then [] else [requestUrl cfg b]))%list
    /\ (cacheHit b w = true
        <-> noCache b = false
            /\ exists t text,
                 item_lastRequestTime (localStorage w) = Some t
                 /\ item_pollenData (localStorage w) = Some text
                 /\ truthy (JSON_parse text) = true
                 /\ clock_getTime b - t < 3600000).
Proof.
  intros cfg b codes w. split.
  - destruct (cacheHit b w) eqn:Hhit.
    + rewrite (getDataByCategory_hit cfg b codes w Hhit). cbn [snd trace].
      rewrite !requests_app, requests_dateDisplayEvents. reflexivity.
    + rewrite (getDataByCategory_miss cfg b codes w Hhit).
      assert (Htr : requests (trace (fetching_world cfg b w))
                    = (requests (trace w) ++ [requestUrl cfg b])%list).
      { unfold fetching_world. cbn [trace].
        rewrite !requests_app, requests_dateDisplayEvents. reflexivity. }
      destruct (cbind _ _); cbn [snd trace]; exact Htr.
  - unfold cacheHit, useCache, storedPollenData, withinLastHour.
    change oneHourInMilliseconds with 3600000.
    destruct (noCache b); cbn [negb andb].
    + split; [discriminate | intros [H _]; discriminate H].
    + destruct (item_lastRequestTime (localStorage w)) as [t|].
      * destruct (item_pollenData (localStorage w)) as [text|].
        -- split.
           ++ intros H. apply andb_true_iff in H. destruct H as [H1 H2].
              apply Z.ltb_lt in H2. split; [reflexivity|].
              exists t, text. auto.
           ++ intros (_ & t' & text' & Ht & Htext & Htruthy & Hage).
              injection Ht as <-. injection Htext as <-.
              rewrite Htruthy. apply Z.ltb_lt. exact Hage.
        -- split; [discriminate|].
           intros (_ & t' & text' & _ & Htext & _). discriminate Htext.
      * split; [discriminate|].
        intros (_ & t' & text' & Ht & _). discriminate Ht.
Qed.

(** X12. [getDataByCategory]. A fetch that succeeds replaces both items,
    whatever the store held: the payload becomes the text of the projected
    response and the stored time becomes the time read before the request
    was sent; the projected response itself is returned. *)
Theorem getDataByCategory_success_overwrites_store :
  forall (cfg : ApiConfig) (b : Browser) (codes : list string) (w : World)
         (data v : jsval),
    cacheHit b w = false ->
    network b (requestUrl cfg b) (apiKey cfg) = Normal data ->
    responseData data codes = Normal v ->
    fst (getDataByCategory cfg b codes w) = Normal v
    /\ item_lastRequestTime (localStorage (snd (getDataByCategory cfg b codes w)))
       = Some (clock_getTime b)
    /\ (exists text,
           JSON_stringify v = Some text
           /\ item_pollenData (localStorage (snd (getDataByCategory cfg b codes w)))
              = Some text).
Proof.
  intros cfg b codes w data v Hmiss Hnet Hresp.
  rewrite (getDataByCategory_miss cfg b codes w Hmiss), Hnet. cbn [cbind].
  rewrite Hresp. cbn [fst snd localStorage item_lastRequestTime item_pollenData].
  split; [reflexivity|]. split; [reflexivity|].
  destruct (responseData_object _ _ _ Hresp) as (m & cs & ->).
  eexists. split; reflexivity.
Qed.

Lemma getDataByCategory_success_overwrites_store_witness :
  fst (getDataByCategory example_config
         (example_browser [] (example_noon + 3600000)) ["GRA"] example_cached_world)
  = Normal (JObj [("moments", example_Moments); ("categories", JArr [example_GRA])])
  /\ item_lastRequestTime
       (localStorage
          (snd (getDataByCategory example_config
                  (example_browser [] (example_noon + 3600000)) ["GRA"]
                  example_cached_world)))
     = Some (clock_getTime (example_browser [] (example_noon + 3600000)))
  /\ (exists text,
         JSON_stringify
           (JObj [("moments", example_Moments); ("categories", JArr [example_GRA])])
         = Some text
         /\ item_pollenData
              (localStorage
                 (snd (getDataByCategory example_config
                         (example_browser [] (example_noon + 3600000)) ["GRA"]
                         example_cached_world)))
            = Some text).
Proof.
  apply (getDataByCategory_success_overwrites_store example_config
           (example_browser [] (example_noon + 3600000)) ["GRA"] example_cached_world
           example_response
           (JObj [("moments", example_Moments); ("categories", JArr [example_GRA])]));
    reflexivity.
Defined.

(** X13. [getDataByCategory]. A fetch that fails, because the request is
    rejected or because the response cannot be projected (it is [null],
    or has no [Categories] array), rejects with that error after the
    request was sent, and leaves the store as it was: an old entry keeps
    its payload and its time. *)
Theorem getDataByCategory_failure_keeps_store :
  forall (cfg : ApiConfig) (b : Browser) (codes : list string) (w : World) (e : exn),
    cacheHit b w = false ->
    cbind (network b (requestUrl cfg b) (apiKey cfg))
          (fun data => responseData data codes) = Throw e ->
    fst (getDataByCategory cfg b codes w) = Throw e
    /\ localStorage (snd (getDataByCategory cfg b codes w)) = localStorage w
    /\ In (HttpGet (requestUrl cfg b) (apiKey cfg))
          (trace (snd (getDataByCategory cfg b codes w))).
Proof.
  intros cfg b codes w e Hmiss Hfail.
  rewrite (getDataByCategory_miss cfg b codes w Hmiss), Hfail.
  cbn [fst snd]. unfold fetching_world. cbn [localStorage trace].
  split; [reflexivity|]. split; [reflexivity|].
  apply in_or_app. right. apply in_or_app. right. right. left. reflexivity.
Qed.

Lemma getDataByCategory_failure_keeps_store_witness :
  fst (getDataByCategory example_config
         {| location_search := [("noCache", "true")];
            clock_today := example_noon;
            clock_getTime := example_noon + 60000;
            network := fun _ _ => Normal (JObj [("Moments", JArr [])]) |}
         ["POL"] example_cached_world)
  = Throw TypeError
  /\ localStorage
       (snd (getDataByCategory example_config
               {| location_search := [("noCache", "true")];
                  clock_today := example_noon;
                  clock_getTime := example_noon + 60000;
                  network := fun _ _ => Normal (JObj [("Moments", JArr [])]) |}
               ["POL"] example_cached_world))
     = localStorage example_cached_world
  /\ In (HttpGet
           (requestUrl example_config
              {| location_search := [("noCache", "true")];
                 clock_today := example_noon;
                 clock_getTime := example_noon + 60000;
                 network := fun _ _ => Normal (JObj [("Moments", JArr [])]) |})
           (apiKey example_config))
        (trace
           (snd (getDataByCategory example_config
                   {| location_search := [("noCache", "true")];
                      clock_today := example_noon;
                      clock_getTime := example_noon + 60000;
                      network := fun _ _ => Normal (JObj [("Moments", JArr [])]) |}
                   ["POL"] example_cached_world))).
Proof.
  apply (getDataByCategory_failure_keeps_store example_config
           {| location_search := [("noCache", "true")];
              clock_today := example_noon;
              clock_getTime := example_noon + 60000;
              network := fun _ _ => Normal (JObj [("Moments", JArr [])]) |}
           ["POL"] example_cached_world TypeError);
    reflexivity.
Defined.

Lemma iso_date_nonempty (ymd : Z * Z * Z) : iso_date ymd <> "".
Proof.
  destruct ymd as [[y m] d]. unfold iso_date.
  destruct (if (0 <=? y) && (y <=? 9999) then padded 4 y
            else (if y <? 0 then "-" else "+") ++ padded 6 (Z.abs y));
    discriminate.
Qed.

Lemma urlDate_nonempty (b : Browser) : String.eqb (urlDate b) "" = false.
Proof.
  unfold urlDate.
  destruct (getUrlParameter b "date") as [d|].
  - destruct (String.eqb d "") eqn:E; cbn [negb]; [|exact E].
    rewrite today_is_utc_date. apply String.eqb_neq. apply iso_date_nonempty.
  - rewrite today_is_utc_date. apply String.eqb_neq. apply iso_date_nonempty.
Qed.

(** X14. [getDataByCategory], lines 62-79. The date of the request is never
    empty, so the guard of line 77 always holds: every load, cached or
    not, first sets the date display to the date of the request. *)
Theorem getDataByCategory_always_displays_the_date :
  forall (cfg : ApiConfig) (b : Browser) (codes : list string) (w : World),
    urlDate b <> ""
    /\ exists rest,
         trace (snd (getDataByCategory cfg b codes w))
         = (trace w ++ DateDisplay (urlDate b) :: rest)%list.
Proof.
  intros cfg b codes w.
  pose proof (urlDate_nonempty b) as Hne.
  split; [apply String.eqb_neq; exact Hne|].
  assert (Hev : dateDisplayEvents b = [DateDisplay (urlDate b)]).
  { unfold dateDisplayEvents. rewrite Hne. reflexivity. }
  destruct (cacheHit b w) eqn:Hhit.
  - rewrite (getDataByCategory_hit cfg b codes w Hhit). cbn [snd trace].
    rewrite Hev. eexists. reflexivity.
  - rewrite (getDataByCategory_miss cfg b codes w Hhit).
    unfold fetching_world. rewrite Hev.
    destruct (cbind _ _); cbn [snd trace]; eexists; reflexivity.
Qed.

(** X15. [getDataByCategory], lines 82-91. The stored payload is returned on a
    hit whatever [date] and [interval] the page asks for and whatever the
    API configuration is: two loads that differ in these, both within the
    hour, get the same payload, while each displays its own date. *)
Theorem cache_hit_ignores_date_and_interval :
  forall (cfg1 cfg2 : ApiConfig) (b1 b2 : Browser) (codes1 codes2 : list string)
         (w : World) (t : Z) (text : json),
    noCache b1 = false ->
    noCache b2 = false ->
    item_lastRequestTime (localStorage w) = Some t ->
    item_pollenData (localStorage w) = Some text ->
    truthy (JSON_parse text) = true ->
    withinLastHour (clock_getTime b1) t = true ->
    withinLastHour (clock_getTime b2) t = true ->
    fst (getDataByCategory cfg1 b1 codes1 w) = fst (getDataByCategory cfg2 b2 codes2 w)
    /\ requests (trace (snd (getDataByCategory cfg2 b2 codes2 w))) = requests (trace w)
    /\ In (DateDisplay (urlDate b1)) (trace (snd (getDataByCategory cfg1 b1 codes1 w)))
    /\ In (DateDisplay (urlDate b2)) (trace (snd (getDataByCategory cfg2 b2 codes2 w))).
Proof.
  intros cfg1 cfg2 b1 b2 codes1 codes2 w t text Hn1 Hn2 Ht Htext Htruthy Hf1 Hf2.
  destruct (cacheHit_of_fresh_entry b1 w t text Hn1 Ht Htext Htruthy Hf1) as [Hhit1 _].
  destruct (cacheHit_of_fresh_entry b2 w t text Hn2 Ht Htext Htruthy Hf2) as [Hhit2 _].
  rewrite (getDataByCategory_hit cfg1 b1 codes1 w Hhit1).
  rewrite (getDataByCategory_hit cfg2 b2 codes2 w Hhit2).
  cbn [fst snd trace]. unfold dateDisplayEvents.
  rewrite !urlDate_nonempty. cbn [negb].
  split; [reflexivity|]. split.
  - rewrite !requests_app. cbn [requests]. rewrite app_nil_r. reflexivity.
  - split; apply in_or_app; right; left; reflexivity.
Qed.

Lemma cache_hit_ignores_date_and_interval_witness :
  fst (getDataByCategory example_config
         (example_browser [("date", "2024-09-12")] (example_noon + 60000))
         ["POL"] example_cached_world)
  = fst (getDataByCategory example_config
           (example_browser [("date", "2023-01-01"); ("interval", "day")]
                            (example_noon + 120000))
           ["POL"] example_cached_world)
  /\ requests
       (trace (snd (getDataByCategory example_config
                      (example_browser [("date", "2023-01-01"); ("interval", "day")]
                                       (example_noon + 120000))
                      ["POL"] example_cached_world)))
     = requests (trace example_cached_world)
  /\ In (DateDisplay
           (urlDate (example_browser [("date", "2024-09-12")] (example_noon + 60000))))
        (trace (snd (getDataByCategory example_config
                       (example_browser [("date", "2024-09-12")] (example_noon + 60000))
                       ["POL"] example_cached_world)))
  /\ In (DateDisplay
           (urlDate (example_browser [("date", "2023-01-01"); ("interval", "day")]
                                     (example_noon + 120000))))
        (trace (snd (getDataByCategory example_config
                       (example_browser [("date", "2023-01-01"); ("interval", "day")]
                                        (example_noon + 120000))
                       ["POL"] example_cached_world))).
Proof.
  apply (cache_hit_ignores_date_and_interval example_config example_config
           (example_browser [("date", "2024-09-12")] (example_noon + 60000))
           (example_browser [("date", "2023-01-01"); ("interval", "day")]
                            (example_noon + 120000))
           ["POL"] ["POL"] example_cached_world example_noon
           (TObj [("moments", TArr [TStr "2024-09-12T00:00:00Z"]);
                  ("categories",
                   TArr [TObj [("CategoryCode", TStr "POL");
                               ("PPM3", TArr [TNum 1.0%float])]])]));
    reflexivity.
Defined.

(** X16. [getDataByCategory], line 89. The age of the entry is a plain
    difference: when the clock reads a time before the stored one (a
    clock that was set back), the difference is negative and the entry
    counts as fresh, so the cache is used and nothing is fetched. *)
Theorem cache_entry_from_the_future_is_fresh :
  forall (cfg : ApiConfig) (b : Browser) (codes : list string) (w : World)
         (t : Z) (text : json),
    noCache b = false ->
    item_lastRequestTime (localStorage w) = Some t ->
    item_pollenData (localStorage w) = Some text ->
    truthy (JSON_parse text) = true ->
    clock_getTime b <= t ->
    fst (getDataByCategory cfg b codes w) = Normal (JSON_parse text)
    /\ requests (trace (snd (getDataByCategory cfg b codes w))) = requests (trace w)
    /\ localStorage (snd (getDataByCategory cfg b codes w)) = localStorage w.
Proof.
  intros cfg b codes w t text Hn Ht Htext Htruthy Hclock.
  assert (Hf : withinLastHour (clock_getTime b) t = true).
  { unfold withinLastHour. apply Z.ltb_lt.
    change oneHourInMilliseconds with 3600000. lia. }
  destruct (cacheHit_of_fresh_entry b w t text Hn Ht Htext Htruthy Hf) as [Hhit Hval].
  rewrite (getDataByCategory_hit cfg b codes w Hhit).
  cbn [fst snd trace localStorage]. rewrite Hval.
  split; [reflexivity|]. split; [|reflexivity].
  rewrite !requests_app, requests_dateDisplayEvents. cbn [requests].
  rewrite app_nil_r. reflexivity.
Qed.

Lemma cache_entry_from_the_future_is_fresh_witness :
  fst (getDataByCategory example_config
         (example_browser [] (example_noon - 86400000)) ["POL"] example_cached_world)
  = Normal (JSON_parse
              (TObj [("moments", TArr [TStr "2024-09-12T00:00:00Z"]);
                     ("categories",
                      TArr [TObj [("CategoryCode", TStr "POL");
                                  ("PPM3", TArr [TNum 1.0%float])]])]))
  /\ requests
       (trace (snd (getDataByCategory example_config
                      (example_browser [] (example_noon - 86400000)) ["POL"]
                      example_cached_world)))
     = requests (trace example_cached_world)
  /\ localStorage
       (snd (getDataByCategory example_config
               (example_browser [] (example_noon - 86400000)) ["POL"]
               example_cached_world))
     = localStorage example_cached_world.
Proof.
  apply (cache_entry_from_the_future_is_fresh example_config
           (example_browser [] (example_noon - 86400000)) ["POL"]
           example_cached_world example_noon
           (TObj [("moments", TArr [TStr "2024-09-12T00:00:00Z"]);
                  ("categories",
                   TArr [TObj [("CategoryCode", TStr "POL");
                               ("PPM3", TArr [TNum 1.0%float])]])]));
    try reflexivity.
  unfold example_noon. cbn. lia.
Defined.

(* ===================================================================== *)
(** * The default date *)
(* ===================================================================== *)

(** Between 0000-01-01 and 9999-12-31 the calendar conversion yields a
    year of four digits, a month and a day of the month. *)
Lemma civil_from_days_range (days : Z) :
  -719528 <= days <= 2932896 ->
  let '(y, m, d) := civil_from_days days in
  0 <= y <= 9999 /\ 1 <= m <= 12 /\ 1 <= d <= 31.
Proof.
  intros H. unfold civil_from_days. cbv zeta.
  set (z := days + 719468).
  set (era := z / 146097).
  set (doe := z - era * 146097).
  assert (Hera : -1 <= era <= 24)
    by (subst era z; Z.to_euclidean_division_equations; lia).
  assert (Hdoe : 0 <= doe <= 146096)
    by (subst doe era; Z.to_euclidean_division_equations; lia).
  assert (Hlast : era = 24 -> doe <= 146036)
    by (subst doe era z; Z.to_euclidean_division_equations; lia).
  assert (Hfirst : era = -1 -> 146037 <= doe)
    by (subst doe era z; Z.to_euclidean_division_equations; lia).
  clearbody doe era. clear z H.
  set (yoe := (doe - doe / 1460 + doe / 36524 - doe / 146096) / 365).
  assert (Hyoe : 0 <= yoe <= 399)
    by (subst yoe; Z.to_euclidean_division_equations; lia).
  set (doy := doe - (365 * yoe + yoe / 4 - yoe / 100)).
  assert (Hdoy : 0 <= doy <= 365)
    by (subst doy yoe; Z.to_euclidean_division_equations; lia).
  set (mp := (5 * doy + 2) / 153).
  assert (Hmp : 0 <= mp <= 11)
    by (subst mp; Z.to_euclidean_division_equations; lia).
  assert (Hd : 1 <= doy - (153 * mp + 2) / 5 + 1 <= 31)
    by (subst mp; Z.to_euclidean_division_equations; lia).
  assert (Hy399 : doe <= 146036 -> yoe = 399 -> mp < 10)
    by (subst mp doy yoe; Z.to_euclidean_division_equations; lia).
  assert (Hy0 : 146037 <= doe -> yoe = 399 /\ 10 <= mp)
    by (subst mp doy yoe; Z.to_euclidean_division_equations; lia).
  destruct (mp <? 10) eqn:Emp.
  - apply Z.ltb_lt in Emp.
    replace (mp + 3 <=? 2) with false by (symmetry; apply Z.leb_gt; lia).
    split; [|split; lia]. lia.
  - apply Z.ltb_ge in Emp.
    replace (mp - 9 <=? 2) with true by (symmetry; apply Z.leb_le; lia).
    split; [|split; lia]. lia.
Qed.

Lemma padded_digit_is_digit (k : Z) :
  is_digit (ascii_of_N (48 + Z.to_N (k mod 10))) = true.
Proof.
  assert (H : 0 <= k mod 10 < 10) by (apply Z.mod_pos_bound; lia).
  assert (E : k mod 10 = 0 \/ k mod 10 = 1 \/ k mod 10 = 2 \/ k mod 10 = 3
              \/ k mod 10 = 4 \/ k mod 10 = 5 \/ k mod 10 = 6 \/ k mod 10 = 7
              \/ k mod 10 = 8 \/ k mod 10 = 9) by lia.
  repeat (destruct E as [E|E]; [rewrite E; reflexivity|]).
  rewrite E; reflexivity.
Qed.

(** X17. [getDataByCategory], lines 67-74. Without a [date] parameter (or with
    an empty one), at any instant of the years 0000 to 9999, the date of
    the request has the [YYYY-MM-DD] form, with the month between 01 and
    12 and the day between 01 and 31 of the current UTC date, and the
    window is that date from [T00:00:00Z] to [T23:59:59Z]. *)
Theorem default_date_is_well_formed :
  forall (b : Browser),
    getUrlParameter b "date" = None \/ getUrlParameter b "date" = Some "" ->
    -62167219200000 <= clock_today b < 253402300800000 ->
    is_YYYY_MM_DD (urlDate b) = true
    /\ (exists y m d,
           0 <= y <= 9999 /\ 1 <= m <= 12 /\ 1 <= d <= 31
           /\ urlDate b = padded 4 y ++ "-" ++ padded 2 m ++ "-" ++ padded 2 d)
    /\ startingDate b = urlDate b ++ "T00:00:00Z"
    /\ endingDate b = urlDate b ++ "T23:59:59Z".
Proof.
  intros b Hparam Hclock.
  assert (Hdate : urlDate b = utc_calendar_date (clock_today b)).
  { unfold urlDate. destruct Hparam as [-> | ->]; cbn [negb String.eqb];
      apply today_is_utc_date. }
  assert (Hdays : -719528 <= clock_today b / msPerDay <= 2932896).
  { unfold msPerDay. Z.to_euclidean_division_equations. lia. }
  pose proof (civil_from_days_range _ Hdays) as Hrange.
  unfold utc_calendar_date in Hdate.
  destruct (civil_from_days (clock_today b / msPerDay)) as [[y m] d].
  destruct Hrange as (Hy & Hm & Hd).
  assert (Hform : iso_date (y, m, d)
                  = padded 4 y ++ "-" ++ padded 2 m ++ "-" ++ padded 2 d).
  { unfold iso_date.
    replace ((0 <=? y) && (y <=? 9999)) with true; [reflexivity|].
    symmetry. apply andb_true_iff. split; apply Z.leb_le; lia. }
  rewrite Hform in Hdate.
  split; [|split; [|split; reflexivity]].
  - rewrite Hdate. unfold is_YYYY_MM_DD. cbn [padded append list_ascii_of_string forallb].
    rewrite !padded_digit_is_digit. reflexivity.
  - exists y, m, d. auto.
Qed.

Lemma default_date_is_well_formed_witness :
  is_YYYY_MM_DD (urlDate (example_browser [("date", "")] example_noon)) = true
  /\ (exists y m d,
         0 <= y <= 9999 /\ 1 <= m <= 12 /\ 1 <= d <= 31
         /\ urlDate (example_browser [("date", "")] example_noon)
            = padded 4 y ++ "-" ++ padded 2 m ++ "-" ++ padded 2 d)
  /\ startingDate (example_browser [("date", "")] example_noon)
     = urlDate (example_browser [("date", "")] example_noon) ++ "T00:00:00Z"
  /\ endingDate (example_browser [("date", "")] example_noon)
     = urlDate (example_browser [("date", "")] example_noon) ++ "T23:59:59Z".
Proof.
  apply (default_date_is_well_formed (example_browser [("date", "")] example_noon)).
  - right. reflexivity.
  - unfold example_noon. cbn. lia.
Defined.

(* ===================================================================== *)
(** * More on JSON and on the projection *)
(* ===================================================================== *)

Lemma stringify_number_stable (x : float) :
  match stringify_number x with
  | TNum y => stringify_number y = TNum y /\ json_number y = true
  | TNull => True
  | _ => False
  end.
Proof.
  unfold stringify_number, json_number.
  destruct (PrimFloat.is_finite x) eqn:Ef; [|exact I].
  destruct (PrimFloat.is_zero x) eqn:Ez.
  - split; reflexivity.
  - rewrite Ef, Ez. split; reflexivity.
Qed.

Lemma serialize_parse_stable (v : jsval) :
  forall text,
    serialize v = Some text ->
    serialize (JSON_parse text) = Some text /\ json_exact (JSON_parse text) = true.
Proof.
  induction v as [ | | b | x | s | elems IH | props IH] using jsval_nested_ind;
    intros text H; try discriminate; cbn [serialize] in H; injection H as <-;
    try (split; reflexivity).
  - pose proof (stringify_number_stable x) as Hx.
    destruct (stringify_number x) as [ | | y | | | ]; try contradiction.
    + split; reflexivity.
    + cbn [JSON_parse serialize json_exact]. destruct Hx as [-> ->].
      split; reflexivity.
  - cbn [JSON_parse serialize json_exact].
    induction IH as [|e elems He _ IHelems]; [split; reflexivity|].
    cbn [map forallb]. destruct IHelems as [H1 H2].
    injection H1 as H1.
    destruct (serialize e) as [t|] eqn:Et.
    + destruct (He t eq_refl) as [-> ->]. rewrite H1, H2. split; reflexivity.
    + cbn [JSON_parse serialize json_exact]. rewrite H1, H2. split; reflexivity.
  - cbn [JSON_parse serialize json_exact].
    induction IH as [|[k e] props He _ IHprops]; [split; reflexivity|].
    cbn [snd] in He. destruct IHprops as [H1 H2]. injection H1 as H1.
    destruct (serialize e) as [t|] eqn:Et.
    + cbn [forallb snd]. destruct (He t eq_refl) as [-> ->].
      rewrite H1, H2. split; reflexivity.
    + split; [rewrite H1; reflexivity | exact H2].
Qed.

(** X18. [JSON.parse] after [JSON.stringify] (lines 83 and 118). Whatever
    value was written, the value read back is one that JSON carries
    unchanged: written again it gives the same text, and read again the
    same value, so a payload that went through the store once no longer
    changes. *)
Theorem stored_payload_is_a_fixed_point :
  forall (v : jsval) (text : json),
    JSON_stringify v = Some text ->
    JSON_stringify (JSON_parse text) = Some text
    /\ json_exact (JSON_parse text) = true
    /\ (forall text', JSON_stringify (JSON_parse text) = Some text' ->
                      JSON_parse text' = JSON_parse text).
Proof.
  intros v text H. unfold JSON_stringify in *.
  destruct (serialize_parse_stable v text H) as [H1 H2].
  split; [exact H1|]. split; [exact H2|].
  intros text' H'. congruence.
Qed.

Lemma stored_payload_is_a_fixed_point_witness :
  JSON_stringify
    (JSON_parse
       (TObj [("moments", TArr [TStr "2024-09-12T00:00:00Z"]);
              ("categories", TArr [TNull; TObj [("PPM3", TArr [TNull; TNum 0%float])]])]))
  = Some (TObj [("moments", TArr [TStr "2024-09-12T00:00:00Z"]);
                ("categories", TArr [TNull; TObj [("PPM3", TArr [TNull; TNum 0%float])]])])
  /\ json_exact
       (JSON_parse
          (TObj [("moments", TArr [TStr "2024-09-12T00:00:00Z"]);
                 ("categories",
                  TArr [TNull; TObj [("PPM3", TArr [TNull; TNum 0%float])]])]))
     = true
  /\ (forall text',
         JSON_stringify
           (JSON_parse
              (TObj [("moments", TArr [TStr "2024-09-12T00:00:00Z"]);
                     ("categories",
                      TArr [TNull; TObj [("PPM3", TArr [TNull; TNum 0%float])]])]))
         = Some text' ->
         JSON_parse text'
         = JSON_parse
             (TObj [("moments", TArr [TStr "2024-09-12T00:00:00Z"]);
                    ("categories",
                     TArr [TNull; TObj [("PPM3", TArr [TNull; TNum 0%float])]])])).
Proof.
  apply (stored_payload_is_a_fixed_point
           (JObj [("moments", JArr [JStr "2024-09-12T00:00:00Z"]);
                  ("dropped", JUndefined);
                  ("categories",
                   JArr [JUndefined;
                         JObj [("PPM3", JArr [JNum PrimFloat.infinity;
                                              JNum PrimFloat.neg_zero])]])])).
  reflexivity.
Defined.

(** X19. [responseData], lines 110-115: where the projection fails.  A
    response that is [null] throws; with no code requested, any other
    response is projected to an empty list, with or without
    [Categories]; and with at least one code requested, a response whose
    [Categories] is not an array throws. *)
Theorem responseData_failures :
  (forall codes,
      responseData JNull codes = Throw TypeError
      /\ responseData JUndefined codes = Throw TypeError)
  /\ (forall data,
         data <> JNull -> data <> JUndefined ->
         responseData data [] =
           Normal (JObj [("moments", Moments_of data); ("categories", JArr [])]))
  /\ (forall data code codes,
         data <> JNull -> data <> JUndefined ->
         (forall elems, get_prop data "Categories" <> Normal (JArr elems)) ->
         responseData data (code :: codes) = Throw TypeError).
Proof.
  split; [|split].
  - intros codes. split; reflexivity.
  - intros data Hn Hu. unfold responseData, Moments_of.
    destruct data; try congruence; reflexivity.
  - intros data code codes Hn Hu Hcat. unfold responseData.
    destruct data as [ | | b | x | s | elems | props]; try congruence;
      try reflexivity.
    cbn [get_prop cbind Array_map findCategory] in *.
    destruct (lookup_prop "Categories" props) as [ | | | | | elems | ];
      try reflexivity.
    exfalso. exact (Hcat elems eq_refl).
Qed.

Lemma Array_find_stops (code : string) (before after : list jsval) (c : jsval) :
  Forall (fun e => e <> JNull /\ e <> JUndefined /\ has_code code e = false) before ->
  Array_find (codeMatches code) (before ++ c :: after) =
    match codeMatches code c with
    | Normal true => Normal c
    | Normal false => Array_find (codeMatches code) after
    | Throw e => Throw e
    end.
Proof.
  induction 1 as [|e before (Hn & Hu & Hc) _ IH]; cbn [app Array_find].
  - reflexivity.
  - destruct (codeMatches_cases code e) as [[[E|E] _] | ->]; [congruence..|].
    rewrite Hc. exact IH.
Qed.

(** X20. [find] at line 113. The search stops at the first entry with the
    requested code: what follows it is not looked at, so a later [null]
    entry does no harm; a [null] entry that comes before any match makes
    the callback throw a TypeError, even when a matching entry follows. *)
Theorem findCategory_stops_at_first_match :
  forall (props : list (string * jsval)) (before after : list jsval)
         (code : string) (c : jsval),
    Forall (fun e => e <> JNull /\ e <> JUndefined /\ has_code code e = false) before ->
    has_code code c = true ->
    (lookup_prop "Categories" props = JArr (before ++ c :: after) ->
     findCategory (JObj props) code = Normal c)
    /\ (lookup_prop "Categories" props = JArr (before ++ JNull :: c :: after) ->
        findCategory (JObj props) code = Throw TypeError).
Proof.
  intros props before after code c Hbefore Hc.
  unfold findCategory. cbn [get_prop cbind]. split; intros ->.
  - rewrite (Array_find_stops code before after c Hbefore).
    destruct (codeMatches_cases code c) as [[[E|E] _] | ->].
    + subst c. discriminate Hc.
    + subst c. discriminate Hc.
    + rewrite Hc. reflexivity.
  - rewrite (Array_find_stops code before (c :: after) JNull Hbefore).
    reflexivity.
Qed.

Lemma findCategory_stops_at_first_match_witness :
  (lookup_prop "Categories" [("Categories", JArr ([example_GRA] ++ example_POL :: [JNull]))]
   = JArr ([example_GRA] ++ example_POL :: [JNull]) ->
   findCategory (JObj [("Categories", JArr ([example_GRA] ++ example_POL :: [JNull]))])
     "POL"
   = Normal example_POL)
  /\ (lookup_prop "Categories"
        [("Categories", JArr ([example_GRA] ++ example_POL :: [JNull]))]
      = JArr ([example_GRA] ++ JNull :: example_POL :: [JNull]) ->
      findCategory (JObj [("Categories", JArr ([example_GRA] ++ example_POL :: [JNull]))])
        "POL"
      = Throw TypeError).
Proof.
  apply (findCategory_stops_at_first_match
           [("Categories", JArr ([example_GRA] ++ example_POL :: [JNull]))]
           [example_GRA] [JNull] "POL" example_POL).
  - repeat constructor; discriminate.
  - reflexivity.
Defined.

Lemma Array_map_app {A B : Type} (f : A -> completion B) (l1 l2 : list A)
      (r1 r2 : list B) :
  Array_map f l1 = Normal r1 ->
  Array_map f l2 = Normal r2 ->
  Array_map f (l1 ++ l2) = Normal (r1 ++ r2)%list.
Proof.
  revert r1. induction l1 as [|x l1 IH]; cbn [app Array_map]; intros r1 H1 H2.
  - injection H1 as <-. exact H2.
  - destruct (f x) as [y|]; [|discriminate]. cbn [cbind] in *.
    destruct (Array_map f l1) as [ys|]; [|discriminate]. cbn [cbind] in *.
    injection H1 as <-. rewrite (IH ys eq_refl H2). reflexivity.
Qed.

(** X21. [responseData], lines 112-114. Each code is looked up on its own:
    the projection for two lists of codes put together is the projection
    for the first followed by the projection for the second, so the entry
    found for a code does not depend on the other codes of the request. *)
Theorem responseData_of_joined_requests :
  forall (data : jsval) (codes1 codes2 : list string) (m1 m2 : jsval)
         (cats1 cats2 : list jsval),
    responseData data codes1
    = Normal (JObj [("moments", m1); ("categories", JArr cats1)]) ->
    responseData data codes2
    = Normal (JObj [("moments", m2); ("categories", JArr cats2)]) ->
    m1 = m2
    /\ responseData data (codes1 ++ codes2)
       = Normal (JObj [("moments", m1); ("categories", JArr (cats1 ++ cats2))]).
Proof.
  intros data codes1 codes2 m1 m2 cats1 cats2 H1 H2. unfold responseData in *.
  destruct (get_prop data "Moments") as [m|]; [|discriminate]. cbn [cbind] in *.
  destruct (Array_map (findCategory data) codes1) as [r1|] eqn:E1; [|discriminate].
  destruct (Array_map (findCategory data) codes2) as [r2|] eqn:E2; [|discriminate].
  cbn [cbind] in *. injection H1 as <- <-. injection H2 as <- <-.
  rewrite (Array_map_app _ _ _ _ _ E1 E2). split; reflexivity.
Qed.

Lemma responseData_of_joined_requests_witness :
  example_Moments = example_Moments
  /\ responseData example_response (["POL"; "XYZ"] ++ ["GRA"])
     = Normal (JObj [("moments", example_Moments);
                     ("categories",
                      JArr ([example_POL; JUndefined] ++ [example_GRA]))]).
Proof.
  apply (responseData_of_joined_requests example_response ["POL"; "XYZ"] ["GRA"]
           example_Moments example_Moments [example_POL; JUndefined] [example_GRA]);
    reflexivity.
Defined.

(* ===================================================================== *)
(** * The zones of the gauge *)
(* ===================================================================== *)

(** X22. [gaugeOptions.staticZones]. No value lies in two zones; every whole
    percentage from 0 to 100 lies in one; a value strictly between 24 and
    25, between 49 and 50 or between 74 and 75 (such as the 24.50 that
    [toFixed(2)] can print) lies in none, and neither does a value below 0
    or above 100. *)
Theorem staticZones_partition_whole_percentages :
  forall (hundredths : Z),
    (length (zones_at hundredths) <= 1)%nat
    /\ (forall n, 0 <= n <= 100 -> hundredths = 100 * n ->
                  exists zone, zones_at hundredths = [zone])
    /\ (2400 < hundredths < 2500 \/ 4900 < hundredths < 5000
        \/ 7400 < hundredths < 7500 \/ hundredths < 0 \/ 10000 < hundredths ->
        zones_at hundredths = []).
Proof.
  intros h. unfold zones_at, staticZones. cbn [filter zone_min zone_max].
  destruct (Z.leb_spec (100 * 0) h); destruct (Z.leb_spec h (100 * 24));
    destruct (Z.leb_spec (100 * 25) h); destruct (Z.leb_spec h (100 * 49));
    destruct (Z.leb_spec (100 * 50) h); destruct (Z.leb_spec h (100 * 74));
    destruct (Z.leb_spec (100 * 75) h); destruct (Z.leb_spec h (100 * 100));
    cbn [andb length]; try lia;
    (split; [lia|]); (split; [intros n Hn Hh; try lia; eexists; reflexivity
                             | intros Hgap; try lia; reflexivity]).
Qed.

(* ===================================================================== *)
(** * The mold page of version 1.0.0 *)
(* ===================================================================== *)

Section Pairing.

Context {A B : Type}.

Lemma combine_fst_snd (l : list (A * B)) : combine (map fst l) (map snd l) = l.
Proof. induction l as [|[a b] l IH]; cbn; [|rewrite IH]; reflexivity. Qed.

Lemma slice_last_map {C : Type} (f : A -> C) (n : nat) (l : list A) :
  slice_last n (map f l) = map f (slice_last n l).
Proof. unfold slice_last. rewrite length_map, skipn_map. reflexivity. Qed.

Lemma length_slice_last (n : nat) (l : list A) :
  length (slice_last n l) = Nat.min n (length l).
Proof. unfold slice_last. rewrite length_skipn. lia. Qed.

Lemma filter_fst_combine (p : A -> bool) (q : B -> bool) (l1 : list A) (l2 : list B) :
  Forall2 (fun a b => p a = q b) l1 l2 ->
  filter p l1 = map fst (filter (fun ab => q (snd ab)) (combine l1 l2))
  /\ filter q l2 = map snd (filter (fun ab => q (snd ab)) (combine l1 l2)).
Proof.
  induction 1 as [|a b l1 l2 Hab _ [IH1 IH2]]; [split; reflexivity|].
  cbn [filter combine snd]. rewrite Hab.
  destruct (q b); cbn [map fst snd]; rewrite <- IH1, <- IH2; split; reflexivity.
Qed.

End Pairing.

Lemma filter_by_index_combine (before : list (option float)) :
  forall (moments : list string) (series : list (option float)),
    length moments = length series ->
    filter_by_index (notNullAt (before ++ series)) (length before) moments
    = map fst (filter (fun mv => notNull (snd mv)) (combine moments series)).
Proof.
  intros moments. revert before.
  induction moments as [|m moments IH]; intros before [|v series] Hlen;
    try discriminate; [reflexivity..|].
  cbn [filter_by_index combine filter snd].
  assert (Hkeep : notNullAt (before ++ v :: series) (length before) = notNull v).
  { unfold notNullAt. rewrite nth_error_app2 by lia. rewrite Nat.sub_diag.
    destruct v; reflexivity. }
  rewrite Hkeep.
  specialize (IH (before ++ [v])%list series ltac:(cbn in Hlen; lia)).
  rewrite <- app_assoc, length_app in IH. cbn [app length] in IH.
  replace (length before + 1)%nat with (S (length before)) in IH by lia.
  rewrite IH. destruct (notNull v); reflexivity.
Qed.

Lemma filter_snd_combine (moments : list string) :
  forall (series : list (option float)),
    length moments = length series ->
    filter notNull series
    = map snd (filter (fun mv => notNull (snd mv)) (combine moments series)).
Proof.
  induction moments as [|m moments IH]; intros [|v series] Hlen; try discriminate;
    [reflexivity|].
  cbn [filter combine snd]. rewrite (IH series) by (cbn in Hlen; lia).
  destruct (notNull v); reflexivity.
Qed.

(** X23. [init] of the mold page. With as many moments as PPM values, the
    gauges get the last four readings (fewer when fewer exist), each PPM
    value still paired with its own moment: the pairs of the two lists
    handed to [displayGauges] are the last four (moment, value) pairs
    whose value is not null. *)
Theorem moldInit_keeps_moments_with_values :
  forall (moments : list string) (PPM3 Misery : list (option float)),
    length moments = length PPM3 ->
    combine (lastFourMoments (moldInit moments PPM3 Misery))
            (lastFourPPM (moldInit moments PPM3 Misery))
    = slice_last 4 (filter (fun mv => notNull (snd mv)) (combine moments PPM3))
    /\ length (lastFourPPM (moldInit moments PPM3 Misery))
       = Nat.min 4 (length (filter notNull PPM3))
    /\ length (lastFourMoments (moldInit moments PPM3 Misery))
       = length (lastFourPPM (moldInit moments PPM3 Misery))
    /\ Forall (fun v => v <> None) (lastFourPPM (moldInit moments PPM3 Misery)).
Proof.
  intros moments PPM3 Misery Hlen.
  cbn [moldInit lastFourMoments lastFourPPM].
  pose proof (filter_by_index_combine [] moments PPM3 Hlen) as Hm.
  cbn [app length] in Hm. rewrite Hm, (filter_snd_combine moments PPM3 Hlen).
  rewrite !slice_last_map, combine_fst_snd.
  split; [reflexivity|]. split; [|split].
  - rewrite length_map, length_slice_last, length_map. reflexivity.
  - rewrite !length_map. reflexivity.
  - rewrite <- slice_last_map, <- (filter_snd_combine moments PPM3 Hlen).
    unfold slice_last. apply Forall_forall. intros v Hin.
    assert (Hin' : In v (filter notNull PPM3)).
    { rewrite <- (firstn_skipn (length (filter notNull PPM3) - 4) (filter notNull PPM3)).
      apply in_or_app. right. exact Hin. }
    apply filter_In in Hin'. destruct Hin' as [_ Hv]. destruct v; [discriminate|discriminate].
Qed.

Lemma moldInit_keeps_moments_with_values_witness :
  combine (lastFourMoments
             (moldInit ["00:00"; "01:00"; "02:00"; "03:00"; "04:00"; "05:00"]
                [Some 1.0; None; Some 2.0; Some 3.0; Some 4.0; Some 5.0]%float []))
          (lastFourPPM
             (moldInit ["00:00"; "01:00"; "02:00"; "03:00"; "04:00"; "05:00"]
                [Some 1.0; None; Some 2.0; Some 3.0; Some 4.0; Some 5.0]%float []))
  = slice_last 4
      (filter (fun mv => notNull (snd mv))
         (combine ["00:00"; "01:00"; "02:00"; "03:00"; "04:00"; "05:00"]
                  [Some 1.0; None; Some 2.0; Some 3.0; Some 4.0; Some 5.0]%float))
  /\ length (lastFourPPM
               (moldInit ["00:00"; "01:00"; "02:00"; "03:00"; "04:00"; "05:00"]
                  [Some 1.0; None; Some 2.0; Some 3.0; Some 4.0; Some 5.0]%float []))
     = Nat.min 4 (length (filter notNull
                            [Some 1.0; None; Some 2.0; Some 3.0; Some 4.0; Some 5.0]%float))
  /\ length (lastFourMoments
               (moldInit ["00:00"; "01:00"; "02:00"; "03:00"; "04:00"; "05:00"]
                  [Some 1.0; None; Some 2.0; Some 3.0; Some 4.0; Some 5.0]%float []))
     = length (lastFourPPM
                 (moldInit ["00:00"; "01:00"; "02:00"; "03:00"; "04:00"; "05:00"]
                    [Some 1.0; None; Some 2.0; Some 3.0; Some 4.0; Some 5.0]%float []))
  /\ Forall (fun v => v <> None)
            (lastFourPPM
               (moldInit ["00:00"; "01:00"; "02:00"; "03:00"; "04:00"; "05:00"]
                  [Some 1.0; None; Some 2.0; Some 3.0; Some 4.0; Some 5.0]%float [])).
Proof.
  apply (moldInit_keeps_moments_with_values
           ["00:00"; "01:00"; "02:00"; "03:00"; "04:00"; "05:00"]
           [Some 1.0; None; Some 2.0; Some 3.0; Some 4.0; Some 5.0]%float []).
  reflexivity.
Defined.

(** X24. [init] of the mold page. Misery is filtered by its own nulls, not by
    those of PPM3: the Misery values stay paired with the PPM values when
    the two series are null at the same positions, and then the pairs
    handed to [displayGauges] are the last four (PPM, Misery) pairs that
    are not null. *)
Theorem moldInit_misery_paired_when_nulls_agree :
  forall (moments : list string) (PPM3 Misery : list (option float)),
    Forall2 (fun p m => notNull p = notNull m) PPM3 Misery ->
    combine (lastFourPPM (moldInit moments PPM3 Misery))
            (lastFourMisery (moldInit moments PPM3 Misery))
    = slice_last 4 (filter (fun pm => notNull (snd pm)) (combine PPM3 Misery))
    /\ length (lastFourMisery (moldInit moments PPM3 Misery))
       = length (lastFourPPM (moldInit moments PPM3 Misery)).
Proof.
  intros moments PPM3 Misery Hagree.
  cbn [moldInit lastFourPPM lastFourMisery].
  destruct (filter_fst_combine notNull notNull PPM3 Misery Hagree) as [-> ->].
  rewrite !slice_last_map, combine_fst_snd. split; [reflexivity|].
  rewrite !length_map. reflexivity.
Qed.

Lemma moldInit_misery_paired_when_nulls_agree_witness :
  combine (lastFourPPM (moldInit ["00:00"; "01:00"; "02:00"]
                          [Some 1.0; None; Some 2.0]%float
                          [Some 0.25; None; Some 0.5]%float))
          (lastFourMisery (moldInit ["00:00"; "01:00"; "02:00"]
                             [Some 1.0; None; Some 2.0]%float
                             [Some 0.25; None; Some 0.5]%float))
  = slice_last 4
      (filter (fun pm => notNull (snd pm))
         (combine [Some 1.0; None; Some 2.0]%float [Some 0.25; None; Some 0.5]%float))
  /\ length (lastFourMisery (moldInit ["00:00"; "01:00"; "02:00"]
                               [Some 1.0; None; Some 2.0]%float
                               [Some 0.25; None; Some 0.5]%float))
     = length (lastFourPPM (moldInit ["00:00"; "01:00"; "02:00"]
                              [Some 1.0; None; Some 2.0]%float
                              [Some 0.25; None; Some 0.5]%float)).
Proof.
  apply (moldInit_misery_paired_when_nulls_agree ["00:00"; "01:00"; "02:00"]
           [Some 1.0; None; Some 2.0]%float [Some 0.25; None; Some 0.5]%float).
  repeat constructor.
Defined.

(** X25. [displayGauges] of the mold page. The Misery text of a gauge is
    ['N/A'] exactly when there is no Misery value at its index, or the
    value is null, zero or NaN: a Misery of 0 is shown as not available,
    not as 0.00. *)
Theorem moldMiseryValue_NA_iff :
  forall (miseryValues : list (option float)) (index : nat),
    moldMiseryValue miseryValues index = "N/A"
    <-> match nth_error miseryValues index with
        | Some (Some x) => PrimFloat.is_zero x = true \/ PrimFloat.is_nan x = true
        | _ => True
        end.
Proof.
  intros miseryValues index. unfold moldMiseryValue.
  destruct (nth_error miseryValues index) as [[x|]|]; try tauto.
  cbn [truthy].
  destruct (PrimFloat.is_zero x); destruct (PrimFloat.is_nan x); cbn [orb negb];
    try tauto.
  split.
  - intros H. exfalso. exact (toFixed2_not_NA _ H).
  - intros [H|H]; discriminate H.
Qed.
